(** * ghb0t: the merge-cleanup decision engine and its two ingestion paths

    A shallow embedding of [main.go].  Go pointers ([*string], [*bool],
    [*github.Repository], ...) are [option]s and a nil dereference is the
    outcome [Panic]; [logrus.Fatal] is the outcome [Exit 1].  The GitHub client
    is a record of oracles answering from the history of observable effects;
    every API call and every log line is appended to that history. *)

From Stdlib Require Import String Ascii List ZArith Bool Lia.
From Stdlib Require DecimalString.
Import ListNotations.
Open Scope string_scope.
Open Scope Z_scope.

Set Implicit Arguments.

(** ** The parts of the [strings] and [strconv] packages that [main.go] calls *)

Module strings.

(** [strings.Contains(s, substr)]. *)
Fixpoint Contains (s substr : string) : bool :=
  String.prefix substr s
  || match s with
     | EmptyString => false
     | String _ s' => Contains s' substr
     end.

(** [strings.Replace(s, old, new, -1)] for a one-byte [old], which is how
    line 174 calls it ([old] is the literal "#"). *)
Fixpoint Replace (s : string) (old : ascii) (new : string) : string :=
  match s with
  | EmptyString => EmptyString
  | String c s' =>
      if Ascii.eqb c old then new ++ Replace s' old new
      else String c (Replace s' old new)
  end.

(** [strings.Split(s, sep)] for a one-byte [sep], which is how line 235
    calls it ([sep] is the literal "/").  The result is never empty. *)
Fixpoint Split (s : string) (sep : ascii) : list string :=
  match s with
  | EmptyString => [EmptyString]
  | String c s' =>
      if Ascii.eqb c sep then EmptyString :: Split s' sep
      else match Split s' sep with
           | p :: ps => String c p :: ps
           | [] => [String c EmptyString]
           end
  end.

End strings.

(** Go's [error] values, as far as this program produces them. *)
Inductive NumErrKind := ErrSyntax | ErrRange.

Inductive error :=
| ClientError (msg : string)
    (** an error returned by the go-github client; [msg] is its [Error()] text *)
| NumError (func num : string) (kind : NumErrKind)
    (** [*strconv.NumError] *).

Module strconv.

Definition maxUint64 : Z := 2 ^ 64 - 1.

(** A decimal digit's value, or [None] for any other byte. *)
Definition digit (c : ascii) : option Z :=
  let n := Z.of_nat (nat_of_ascii c) in
  if (48 <=? n) && (n <=? 57) then Some (n - 48) else None.

(** The scanning loop of [ParseUint(s, 10, 64)]: a byte that is not a digit
    is a syntax error, a value beyond [maxUint64] a range error, whichever
    comes first from the left. *)
Fixpoint scan (s : string) (n : Z) : Z + NumErrKind :=
  match s with
  | EmptyString => inl n
  | String c s' =>
      match digit c with
      | None => inr ErrSyntax
      | Some d =>
          let n1 := n * 10 + d in
          if n1 >? maxUint64 then inr ErrRange else scan s' n1
      end
  end.

(** [ParseInt(s, 10, 0)] on a 64-bit platform: optional sign, at least one
    digit, result within [-2^63, 2^63 - 1]. *)
Definition ParseInt (s : string) : Z + NumErrKind :=
  match s with
  | EmptyString => inr ErrSyntax
  | String c s' =>
      let neg := Ascii.eqb c "-" in
      let body := if neg || Ascii.eqb c "+" then s' else s in
      match body with
      | EmptyString => inr ErrSyntax
      | _ =>
          match scan body 0 with
          | inr k => inr k
          | inl un =>
              if negb neg && (un >=? 2 ^ 63) then inr ErrRange
              else if neg && (un >? 2 ^ 63) then inr ErrRange
              else inl (if neg then - un else un)
          end
      end
  end.

(** [strconv.Atoi(s)].  Its fast path for short strings computes the same
    result as [ParseInt]. *)
Definition Atoi (s : string) : Z + error :=
  match ParseInt s with
  | inl n => inl n
  | inr k => inr (NumError "Atoi" s k)
  end.

End strconv.

(** ** The go-github data the program reads *)

(** [time.Time], as nanoseconds since the zero time. *)
Definition Time := Z.
Definition IsZero (t : Time) : bool := t =? 0.

Record User := { Login : option string }.

Record Repository :=
  { Owner : option User; Name : option string; FullName : option string }.

Record PullRequestBranch := { Ref : option string; Repo : option Repository }.

Record PullRequest :=
  { Number : option Z;
    State : option string;
    Merged : option bool;
    Head : option PullRequestBranch }.

(** [github.NotificationSubject]; the Go field [Type] is [SubjectType] here. *)
Record NotificationSubject :=
  { SubjectType : option string; URL : option string }.

(** [github.Notification]; the Go field [Repository] is [NRepository] here. *)
Record Notification :=
  { Subject : option NotificationSubject; NRepository : option Repository }.

Record ListOptions := { Page : Z; PerPage : Z }.

Record NotificationListOptions :=
  { All : bool; Since : Time; Options : ListOptions }.

(** The pagination fields of [github.Response]. *)
Record Response := { NextPage : Z; LastPage : Z }.

(** The [event] struct of lines 42-47; its Go fields [PullRequest],
    [Repository] and [Number] carry the prefix [E] here. *)
Record event :=
  { EPullRequest : option PullRequest;
    ERepository : option Repository;
    ENumber : Z;
    Action : string }.

(** ** Observable effects *)

Inductive Level := InfoLevel | WarnLevel | ErrorLevel | FatalLevel.

(** The log lines of [main.go], by the format string and its arguments. *)
Inductive LogLine :=
| LogBranchGone (branch owner name : string)
    (** "Branch %s on %s/%s no longer exists." *)
| LogError (e : error)
    (** [logrus.Warn(err)] *)
| LogReadFailed
    (** "Failed to read request body" *)
| LogCloseFailed (number : Z) (fullName : string) (e : error)
    (** "Failed to close PullRequest %d on %s: %s" *)
| LogSkipNotClosed (number : Z) (fullName action : string)
    (** "Skipping PR event, PR %d on %s state %s is not closed" *)
| LogSkipNonPR (evt : event)
    (** "Skipping non PR event %v" *).

Inductive Event :=
| EvListNotifications (opt : NotificationListOptions)
| EvPullRequestsGet (owner repo : string) (number : Z)
| EvDeleteRef (owner repo ref : string)
| EvLog (lvl : Level) (line : LogLine).

(** [*github.Client]: each service answers from the history of effects so
    far.  A failing call answers with the [Error()] text of its error. *)
Record Client :=
  { Activity_ListNotifications :
      list Event -> NotificationListOptions ->
      (list Notification * Response) + string;
    PullRequests_Get :
      list Event -> string -> string -> Z -> PullRequest + string;
    Git_DeleteRef :
      list Event -> string -> string -> string -> option string }.

(** The process state: the package variable [lastChecked] (line 34), the
    reading [time.Now()] gives, and the effects so far. *)
Record World :=
  { lastChecked : Time; clock : Time; trace : list Event }.

Inductive Outcome (A : Type) :=
| Ret (a : A)        (** normal return *)
| Panic              (** run-time panic: nil dereference, index out of range *)
| Exit (code : Z)    (** [os.Exit] *)
| OutOfFuel          (** the recursion bound of the model was reached *).

Arguments Panic {A}.
Arguments Exit {A} code.
Arguments OutOfFuel {A}.

Definition M (A : Type) : Type := World -> Outcome A * World.

Definition ret {A} (a : A) : M A := fun w => (Ret a, w).

Definition bind {A B} (m : M A) (k : A -> M B) : M B :=
  fun w =>
    match m w with
    | (Ret a, w') => k a w'
    | (Panic, w') => (Panic, w')
    | (Exit c, w') => (Exit c, w')
    | (OutOfFuel, w') => (OutOfFuel, w')
    end.

Declare Scope go_scope.
Delimit Scope go_scope with go.
Notation "x <- m ;; k" := (bind m (fun x => k))
  (at level 100, m at next level, right associativity) : go_scope.
Notation "m ;; k" := (bind m (fun _ => k))
  (at level 100, right associativity) : go_scope.
Open Scope go_scope.

Definition panic {A} : M A := fun w => (Panic, w).
Definition exit {A} (code : Z) : M A := fun w => (Exit code, w).

(** [*p]: a nil pointer panics. *)
Definition deref {A} (p : option A) : M A :=
  match p with
  | Some a => ret a
  | None => panic
  end.

Definition emit (evs : list Event) (w : World) : World :=
  {| lastChecked := lastChecked w;
     clock := clock w;
     trace := trace w ++ evs |}.

Definition log (lvl : Level) (line : LogLine) : M unit :=
  fun w => (Ret tt, emit [EvLog lvl line] w).

(** [logrus.Fatal]: the line is logged and the process exits with status 1. *)
Definition fatal {A} (line : LogLine) : M A :=
  log FatalLevel line ;; exit 1.

(** ** The GitHub calls, each recorded in the history *)

Definition DeleteRef (client : Client) (owner repo ref : string)
  : M (option string) :=
  fun w =>
    (Ret (Git_DeleteRef client (trace w) owner repo ref),
     emit [EvDeleteRef owner repo ref] w).

Definition Get (client : Client) (owner repo : string) (number : Z)
  : M (PullRequest + error) :=
  fun w =>
    (Ret match PullRequests_Get client (trace w) owner repo number with
         | inl pr => inl pr
         | inr msg => inr (ClientError msg)
         end,
     emit [EvPullRequestsGet owner repo number] w).

Definition ListNotifications (client : Client) (opt : NotificationListOptions)
  : M ((list Notification * Response) + error) :=
  fun w =>
    (Ret match Activity_ListNotifications client (trace w) opt with
         | inl r => inl r
         | inr msg => inr (ClientError msg)
         end,
     emit [EvListNotifications opt] w).

(** ** The program *)

(** [closePR], lines 160-183. *)
Definition closePR (client : Client) (username : string) (pr : PullRequest)
  : M (option error) :=
  state <- deref (State pr) ;;
  cond <- (if (state =? "closed")%string then deref (Merged pr) else ret false) ;;
  if cond : bool then
    head <- deref (Head pr) ;;
    branch <- deref (Ref head) ;;
    match Repo head with
    | None => ret None
    | Some repo =>
        match Owner repo with
        | None => ret None
        | Some o =>
            owner <- deref (Login o) ;;
            if (owner =? username)%string && negb (branch =? "master")%string then
              name <- deref (Name repo) ;;
              ref <- deref (Ref head) ;;
              err <- DeleteRef client username name
                       (strings.Replace ("heads/" ++ ref) "#" "%23") ;;
              if match err with
                 | Some msg => negb (strings.Contains msg " 422 ")
                 | None => false
                 end
              then ret (option_map ClientError err)
              else
                log InfoLevel (LogBranchGone branch owner name) ;;
                ret None
            else ret None
        end
    end
  else ret None.

(** [parts[len(parts)-1]], line 236. *)
Definition lastPart (parts : list string) : M string :=
  match nth_error parts (Nat.pred (List.length parts)) with
  | Some p => ret p
  | None => panic
  end.

(** [handleNotification], lines 231-249. *)
Definition handleNotification (client : Client) (notification : Notification)
    (username : string) : M (option error) :=
  subject <- deref (Subject notification) ;;
  type <- deref (SubjectType subject) ;;
  if (type =? "PullRequest")%string then
    url <- deref (URL subject) ;;
    last <- lastPart (strings.Split url "/") ;;
    match strconv.Atoi last with
    | inr err => ret (Some err)
    | inl id =>
        repository <- deref (NRepository notification) ;;
        o <- deref (Owner repository) ;;
        owner <- deref (Login o) ;;
        name <- deref (Name repository) ;;
        r <- Get client owner name id ;;
        match r with
        | inr err => ret (Some err)
        | inl pr => closePR client username pr
        end
    end
  else ret None.

(** The loop of lines 215-220: the first error ends it. *)
Fixpoint handleAll (client : Client) (notifications : list Notification)
    (username : string) : M (option error) :=
  match notifications with
  | [] => ret None
  | notification :: rest =>
      err <- handleNotification client notification username ;;
      match err with
      | Some e => ret (Some e)
      | None => handleAll client rest username
      end
  end.

(** Lines 206-208: a zero [lastChecked] becomes [time.Now()]. *)
Definition baseline (w : World) : World :=
  if IsZero (lastChecked w)
  then {| lastChecked := clock w; clock := clock w; trace := trace w |}
  else w.

(** The options of lines 198-205, built from watermark [since]. *)
Definition options (since : Time) (page perPage : Z)
  : NotificationListOptions :=
  {| All := true;
     Since := since;
     Options := {| Page := page; PerPage := perPage |} |}.

(** Lines 198-208: the options are built from the current [lastChecked], and
    only then is a zero [lastChecked] replaced. *)
Definition prepare (page perPage : Z) : M NotificationListOptions :=
  fun w => (Ret (options (lastChecked w) page perPage), baseline w).

(** [getNotifications], lines 197-229.  [fuel] bounds the depth of the
    recursion of line 228. *)
Fixpoint getNotifications (fuel : nat) (client : Client) (username : string)
    (page perPage : Z) : M (option error) :=
  match fuel with
  | O => fun w => (OutOfFuel, w)
  | S fuel' =>
      opt <- prepare page perPage ;;
      r <- ListNotifications client opt ;;
      match r with
      | inr err => ret (Some err)
      | inl (notifications, resp) =>
          err <- handleAll client notifications username ;;
          match err with
          | Some e => ret (Some e)
          | None =>
              if (page =? LastPage resp) || (NextPage resp =? 0) then ret None
              else getNotifications fuel' client username (NextPage resp) perPage
          end
      end
  end.

(** One iteration of the loop of lines 187-193. *)
Definition tick (fuel : nat) (client : Client) (username : string) : M unit :=
  err <- getNotifications fuel client username 1 20 ;;
  match err with
  | Some e => log WarnLevel (LogError e)
  | None => ret tt
  end.

(** [notifier], lines 185-194, over the first [ticks] ticks of the ticker. *)
Fixpoint notifier (ticks : nat) (fuel : nat) (client : Client)
    (username : string) : M unit :=
  match ticks with
  | O => ret tt
  | S ticks' => tick fuel client username ;; notifier ticks' fuel client username
  end.

(** An inbound request: what [ioutil.ReadAll(req.Body)] gives, the bytes or
    the [Error()] text of a read error. *)
Record Request := { Body : string + string }.

(** The handler [buildHandler] returns, lines 128-153.  [unmarshal] stands for
    [json.Unmarshal] into a fresh [event]: the decoded event, or the text of
    the decoding error. *)
Definition buildHandler (unmarshal : string -> event + string)
    (client : Client) (username : string) (req : Request) : M unit :=
  match Body req with
  | inr _ => fatal LogReadFailed
  | inl b =>
      match unmarshal b with
      | inr _ => fatal LogReadFailed
      | inl evt =>
          match EPullRequest evt with
          | Some pr =>
              if (Action evt =? "closed")%string then
                err <- closePR client username pr ;;
                match err with
                | Some e =>
                    number <- deref (Number pr) ;;
                    repository <- deref (ERepository evt) ;;
                    fullName <- deref (FullName repository) ;;
                    log ErrorLevel (LogCloseFailed number fullName e)
                | None => ret tt
                end
              else
                number <- deref (Number pr) ;;
                repository <- deref (ERepository evt) ;;
                fullName <- deref (FullName repository) ;;
                log InfoLevel (LogSkipNotClosed number fullName (Action evt))
          | None => log InfoLevel (LogSkipNonPR evt)
          end
      end
  end.

(** ** Reading the history *)

(** The effects between an earlier world [w] and a later one [w']. *)
Definition issued (w w' : World) : list Event :=
  skipn (List.length (trace w)) (trace w').

(** The branch deletions among some effects, as (owner, repo, ref). *)
Fixpoint deletions (evs : list Event) : list (string * string * string) :=
  match evs with
  | [] => []
  | EvDeleteRef owner repo ref :: evs' => (owner, repo, ref) :: deletions evs'
  | _ :: evs' => deletions evs'
  end.

(** The pull requests retrieved among some effects. *)
Fixpoint retrievals (evs : list Event) : list (string * string * Z) :=
  match evs with
  | [] => []
  | EvPullRequestsGet owner repo number :: evs' =>
      (owner, repo, number) :: retrievals evs'
  | _ :: evs' => retrievals evs'
  end.

(** The notification pages requested among some effects. *)
Fixpoint listings (evs : list Event) : list NotificationListOptions :=
  match evs with
  | [] => []
  | EvListNotifications opt :: evs' => opt :: listings evs'
  | _ :: evs' => listings evs'
  end.

(** [pr.Head.Repo.Owner.Login], when every pointer on the way is set. *)
Definition headOwner (pr : PullRequest) : option string :=
  match Head pr with
  | Some h =>
      match Repo h with
      | Some r => match Owner r with Some o => Login o | None => None end
      | None => None
      end
  | None => None
  end.

(** [pr.Head.Repo], when [pr.Head] is set. *)
Definition headRepo (pr : PullRequest) : option Repository :=
  match Head pr with
  | Some h => Repo h
  | None => None
  end.

(** The test of line 176 on the text of a deletion error, as the code makes
    it: the text holds " 422 " somewhere.  It is a test of the text alone,
    not of what the client reports (see [refMissing]). *)
Definition notFound (msg : string) : bool := strings.Contains msg " 422 ".

(** Two evaluations of the same pull request, one after the other. *)
Definition closeTwice (client : Client) (username : string) (pr : PullRequest)
  : M (option error * option error) :=
  first <- closePR client username pr ;;
  second <- closePR client username pr ;;
  ret (first, second).

(** What the deletion path of [closePR] (lines 174-179) does for head
    repository [name] and head branch [branch]. *)
Definition deletion (client : Client) (username name branch : string)
    (w : World) : Outcome (option error) * World :=
  let ref := strings.Replace ("heads/" ++ branch) "#" "%23" in
  match Git_DeleteRef client (trace w) username name ref with
  | Some msg =>
      if notFound msg
      then (Ret None,
            emit [EvDeleteRef username name ref;
                  EvLog InfoLevel (LogBranchGone branch username name)] w)
      else (Ret (Some (ClientError msg)),
            emit [EvDeleteRef username name ref] w)
  | None =>
      (Ret None,
       emit [EvDeleteRef username name ref;
             EvLog InfoLevel (LogBranchGone branch username name)] w)
  end.

(** The pointers [closePR] dereferences before it reaches line 165 are set:
    [pr.State]; [pr.Merged] when the state is "closed"; [pr.Head] and
    [pr.Head.Ref] when the pull request is also merged. *)
Definition readable (pr : PullRequest) : bool :=
  match State pr with
  | None => false
  | Some s =>
      if (s =? "closed")%string then
        match Merged pr with
        | None => false
        | Some false => true
        | Some true =>
            match Head pr with
            | Some h => match Ref h with Some _ => true | None => false end
            | None => false
            end
        end
      else true
  end.

(** ** Feeds *)

(** One page of a notification feed: its single notification, the pull
    request that notification names and resolves to, and the pagination
    fields of the page's response. *)
Record FeedPage :=
  { note : Notification;
    owner : string;
    repo : string;
    number : Z;
    pull : PullRequest;
    resp : Response }.

(** The notification of page [p] is a pull-request notification whose
    subject URL ends in the decimal [number p], in repository
    [owner p]/[repo p], and the client resolves it to [pull p]. *)
Definition resolves (client : Client) (p : FeedPage) : Prop :=
  exists subject url last repository o,
    Subject (note p) = Some subject
    /\ SubjectType subject = Some "PullRequest"
    /\ URL subject = Some url
    /\ nth_error (strings.Split url "/")
         (Nat.pred (List.length (strings.Split url "/"))) = Some last
    /\ strconv.Atoi last = inl (number p)
    /\ NRepository (note p) = Some repository
    /\ Owner repository = Some o
    /\ Login o = Some (owner p)
    /\ Name repository = Some (repo p)
    /\ forall past,
         PullRequests_Get client past (owner p) (repo p) (number p)
         = inl (pull p).

(** The client serves [feed], one page after the other, from page number
    [page] on: each page lists its one notification, whose resolution and
    evaluation succeed; every page but the last names the next page and is
    not announced as the last one; the last page names no next page. *)
Fixpoint serves (client : Client) (username : string) (perPage page : Z)
    (feed : list FeedPage) : Prop :=
  match feed with
  | [] => True
  | p :: rest =>
      (forall past since,
          Activity_ListNotifications client past (options since page perPage)
          = inl ([note p], resp p))
      /\ resolves client p
      /\ (forall w, fst (closePR client username (pull p) w) = Ret None)
      /\ match rest with
         | [] => NextPage (resp p) = 0
         | _ :: _ => NextPage (resp p) <> 0 /\ LastPage (resp p) <> page
         end
      /\ serves client username perPage (NextPage (resp p)) rest
  end.

(** The world after one listing, one retrieval and one evaluation for each
    page of [feed] in turn, from page number [page] on. *)
Fixpoint evaluated (client : Client) (username : string) (perPage page : Z)
    (feed : list FeedPage) (w : World) : World :=
  match feed with
  | [] => w
  | p :: rest =>
      evaluated client username perPage (NextPage (resp p)) rest
        (snd (closePR client username (pull p)
                (emit [EvListNotifications
                         (options (lastChecked w) page perPage);
                       EvPullRequestsGet (owner p) (repo p) (number p)]
                   (baseline w))))
  end.

(** ** Concrete clients, pull requests and feeds *)

Module Fixture.

Definition repoOf (owner name : string) : Repository :=
  {| Owner := Some {| Login := Some owner |};
     Name := Some name;
     FullName := Some (owner ++ "/" ++ name) |}.

Definition merged (number : Z) (owner name branch : string) : PullRequest :=
  {| Number := Some number;
     State := Some "closed";
     Merged := Some true;
     Head := Some {| Ref := Some branch; Repo := Some (repoOf owner name) |} |}.

Definition pr42 : PullRequest := merged 42 "bot" "tool" "feature-x".
Definition prHash : PullRequest := merged 7 "bot" "tool" "fix#12".
Definition prMaster : PullRequest := merged 42 "bot" "tool" "master".
Definition prForeign : PullRequest := merged 42 "alice" "tool" "feature-x".

Definition prOpen : PullRequest :=
  {| Number := Some 5;
     State := Some "open";
     Merged := Some false;
     Head := Some {| Ref := Some "feature-x";
                     Repo := Some (repoOf "bot" "tool") |} |}.

(** Merged and closed, the head repository gone, the branch name still
    there. *)
Definition prNoRepo : PullRequest :=
  {| Number := Some 6;
     State := Some "closed";
     Merged := Some true;
     Head := Some {| Ref := Some "feature-x"; Repo := None |} |}.

(** Merged and closed, the head repository and the branch name both absent. *)
Definition prNoRef : PullRequest :=
  {| Number := Some 6;
     State := Some "closed";
     Merged := Some true;
     Head := Some {| Ref := None; Repo := None |} |}.

(** Not merged, and no state. *)
Definition prNoState : PullRequest :=
  {| Number := Some 6;
     State := None;
     Merged := Some false;
     Head := Some {| Ref := Some "feature-x";
                     Repo := Some (repoOf "bot" "tool") |} |}.

(** A pull request with no number, as a payload without that key decodes. *)
Definition prNoNumber : PullRequest :=
  {| Number := None;
     State := Some "open";
     Merged := Some false;
     Head := None |}.

Definition start : World := {| lastChecked := 0; clock := 1000; trace := [] |}.

(** Nothing to list, no pull request to get, every deletion succeeds. *)
Definition quiet : Client :=
  {| Activity_ListNotifications :=
       fun _ _ => inl ([], {| NextPage := 0; LastPage := 0 |});
     PullRequests_Get := fun _ _ _ _ => inr "GET: 404 Not Found []";
     Git_DeleteRef := fun _ _ _ _ => None |}.

(** A branch can be deleted once: a later deletion of the same reference is
    answered 422. *)
Definition once : Client :=
  {| Activity_ListNotifications :=
       fun _ _ => inl ([], {| NextPage := 0; LastPage := 0 |});
     PullRequests_Get := fun _ _ _ _ => inr "GET: 404 Not Found []";
     Git_DeleteRef :=
       fun past owner repo ref =>
         if existsb
              (fun d =>
                 match d with
                 | (o, r, f) => ((o =? owner) && (r =? repo) && (f =? ref))%string
                 end)
              (deletions past)
         then Some "DELETE: 422 Reference does not exist []"
         else None |}.

(** Every deletion is refused. *)
Definition forbidden : Client :=
  {| Activity_ListNotifications :=
       fun _ _ => inl ([], {| NextPage := 0; LastPage := 0 |});
     PullRequests_Get := fun _ _ _ _ => inr "GET: 404 Not Found []";
     Git_DeleteRef := fun _ _ _ _ => Some "DELETE: 403 Forbidden []" |}.

Definition noteOf (owner name url : string) : Notification :=
  {| Subject := Some {| SubjectType := Some "PullRequest"; URL := Some url |};
     NRepository := Some (repoOf owner name) |}.

Definition note41 : Notification :=
  noteOf "up" "tool" "https://api.github.com/repos/up/tool/pulls/41".
Definition note42 : Notification :=
  noteOf "up" "tool" "https://api.github.com/repos/up/tool/pulls/42".

Definition pr41 : PullRequest := merged 41 "bot" "tool" "feature-w".

(** A feed of two pages, one merged pull request of the bot on each. *)
Definition twoPages : list FeedPage :=
  [ {| note := note41; owner := "up"; repo := "tool"; number := 41;
       pull := pr41; resp := {| NextPage := 2; LastPage := 2 |} |};
    {| note := note42; owner := "up"; repo := "tool"; number := 42;
       pull := pr42; resp := {| NextPage := 0; LastPage := 0 |} |} ].

Definition paged : Client :=
  {| Activity_ListNotifications :=
       fun _ opt =>
         if Page (Options opt) =? 1
         then inl ([note41], {| NextPage := 2; LastPage := 2 |})
         else inl ([note42], {| NextPage := 0; LastPage := 0 |});
     PullRequests_Get :=
       fun _ _ _ number => if number =? 41 then inl pr41 else inl pr42;
     Git_DeleteRef := fun _ _ _ _ => None |}.


(** Webhook payloads, by a toy decoder: the body "opened" decodes to an
    event for an opened pull request with neither number nor repository,
    "closed" to the closing of pull request 42, "push" to an event without
    a pull request, and nothing else decodes. *)
Definition evtOpened : event :=
  {| EPullRequest := Some prNoNumber;
     ERepository := None;
     ENumber := 0;
     Action := "opened" |}.

Definition evtClosed : event :=
  {| EPullRequest := Some pr42;
     ERepository := Some (repoOf "up" "tool");
     ENumber := 42;
     Action := "closed" |}.

Definition evtPush : event :=
  {| EPullRequest := None;
     ERepository := Some (repoOf "up" "tool");
     ENumber := 0;
     Action := "" |}.

Definition decode (body : string) : event + string :=
  if (body =? "opened")%string then inl evtOpened
  else if (body =? "closed")%string then inl evtClosed
  else if (body =? "push")%string then inl evtPush
  else inr "unexpected end of JSON input".

End Fixture.

(** ** Further readings of the program *)

(** [strings.Join(parts, sep)]. *)
Fixpoint Join (parts : list string) (sep : string) : string :=
  match parts with
  | [] => EmptyString
  | [p] => p
  | p :: rest => p ++ sep ++ Join rest sep
  end.

(** A deletion the bot [username] may issue: in its own account, on a
    reference under "heads/" other than "heads/master", with no "#" left in
    the reference. *)
Definition safeDeletion (username : string) (d : string * string * string)
  : Prop :=
  match d with
  | (owner, _, ref) =>
      owner = username
      /\ ref <> "heads/master"
      /\ String.prefix "heads/" ref = true
      /\ strings.Contains ref "#" = false
  end.

(** The test of line 233, on a notification whose subject and type are
    set. *)
Definition isPullRequest (n : Notification) : bool :=
  match Subject n with
  | Some subject =>
      match SubjectType subject with
      | Some type => (type =? "PullRequest")%string
      | None => false
      end
  | None => false
  end.

(** The listing options a poll from world [w] may send: read and unread
    notifications, [perPage] to a page, since the watermark of [w], or since
    the current time when that watermark is still zero. *)
Definition pollOptions (w : World) (perPage : Z)
    (opt : NotificationListOptions) : Prop :=
  All opt = true
  /\ PerPage (Options opt) = perPage
  /\ (Since opt = lastChecked w
      \/ (lastChecked w = 0 /\ Since opt = clock w)).

(** ** What the client reports when a deletion fails *)

(** A failed call as go-github reports it ([github.ErrorResponse]): the URL
    of the request, the HTTP status of the answer and its message. *)
Record DeleteFailure :=
  { failedURL : string; statusCode : Z; message : string }.

Definition decimal (z : Z) : string :=
  DecimalString.NilZero.string_of_int (Z.to_int z).

(** The [Error()] text of a [github.ErrorResponse] for a DELETE request
    whose answer lists no further errors:
    "DELETE <url>: <status> <message> []".  This text is all that line 176
    looks at. *)
Definition failureText (f : DeleteFailure) : string :=
  "DELETE " ++ failedURL f ++ ": " ++ decimal (statusCode f) ++ " "
  ++ message f ++ " []".

(** The client reports that the reference to delete does not exist: GitHub
    answers such a deletion with status 422 and the message "Reference does
    not exist" (the comment of line 175). *)
Definition refMissing (f : DeleteFailure) : bool :=
  (statusCode f =? 422) && (message f =? "Reference does not exist")%string.

(** ** Start-up: [init], [usageAndExit] and [main] *)

Module Startup.

(** The package variables the flags are parsed into (lines 30-40). *)
Record Flags :=
  { token : string;
    interval : string;
    debug : bool;
    version : bool;
    webhook : bool }.

Definition VERSION : string := "v0.1.0".

(** What start-up writes and sets, in order. *)
Inductive Write :=
| Stdout (text : string)       (** text printed on standard output *)
| Stderr (format : string)
    (** [fmt.Fprintf(os.Stderr, format)], no further argument *)
| Banner                      (** [fmt.Sprintf(BANNER, VERSION)] on stderr *)
| PrintDefaults               (** [flag.PrintDefaults()] *)
| SetLevelDebug               (** [logrus.SetLevel(logrus.DebugLevel)] *)
| LogFatal (msg : string)     (** [logrus.Fatal(err)] *)
| LogFatalInterval (interval msg : string)
    (** "parsing %s as duration failed: %v" *)
| LogStarted (username : string)
    (** "Bot started for user %s." *)
| PrintWebhook (flag : bool)  (** [fmt.Println("webhook: ", webhook)] *).

(** What [main] hands over to (lines 121-125). *)
Inductive Mode :=
| ListenHooks (port : Z) (username : string)
| Notifier (dur : Z) (username : string).

Definition newline : string := String (ascii_of_nat 10) EmptyString.

(** [usageAndExit], lines 251-259. *)
Definition usageAndExit {A} (message : string) (exitCode : Z)
  : list Write * Outcome A :=
  ((if (message =? "")%string then []
    else [Stderr message; Stderr (newline ++ newline)])
   ++ [Banner; PrintDefaults; Stderr newline],
   Exit exitCode)%list.

(** [init] from line 67 on, for flags that [flag.Parse()] (line 65) has
    parsed.  [flag.Parse()] itself, which exits with status 2 on a flag it
    does not know and with status 0 on -h or -help, is not part of this
    definition. *)
Definition init (f : Flags) : list Write * Outcome unit :=
  if version f then ([Stdout VERSION], Exit 0)
  else
    let level := if debug f then [SetLevelDebug] else [] in
    if (token f =? "")%string then
      match usageAndExit "GitHub token cannot be empty." 1 with
      | (ws, out) => ((level ++ ws)%list, out)
      end
    else (level, Ret tt).

(** [main] from line 107 on, on its own goroutine.  [who] is what
    [client.Users.Get("")] answers, the user or the text of the error;
    [parseDuration] stands for [time.ParseDuration].  The goroutine of lines
    88-94, which exits with status 0 on an interrupt, is not part of this
    definition. *)
Definition main (f : Flags) (who : User + string)
    (parseDuration : string -> Z + string) : list Write * Outcome Mode :=
  match who with
  | inr msg => ([LogFatal msg], Exit 1)
  | inl user =>
      match Login user with
      | None => ([], Panic)
      | Some username =>
          match parseDuration (interval f) with
          | inr msg => ([LogFatalInterval (interval f) msg], Exit 1)
          | inl dur =>
              ([LogStarted username; PrintWebhook (webhook f)],
               Ret (if webhook f then ListenHooks 8080 username
                    else Notifier dur username))
          end
      end
  end.

(** The program from its start: [init] runs before [main]. *)
Definition run (f : Flags) (who : User + string)
    (parseDuration : string -> Z + string) : list Write * Outcome Mode :=
  match init f with
  | (ws, Ret _) =>
      match main f who parseDuration with
      | (ws', out) => ((ws ++ ws')%list, out)
      end
  | (ws, Panic) => (ws, Panic)
  | (ws, Exit c) => (ws, Exit c)
  | (ws, OutOfFuel) => (ws, OutOfFuel)
  end.

End Startup.

(** ** Further clients and inputs *)

Module Sample.

(** Every page is empty, names page 1 as the next one and announces one
    more page than asked for. *)
Definition endless : Client :=
  {| Activity_ListNotifications :=
       fun _ opt =>
         inl ([], {| NextPage := 1; LastPage := Page (Options opt) + 1 |});
     PullRequests_Get := fun _ _ _ _ => inr "GET: 404 Not Found []";
     Git_DeleteRef := fun _ _ _ _ => None |}.

(** No listing succeeds. *)
Definition down : Client :=
  {| Activity_ListNotifications := fun _ _ => inr "GET: 502 Bad Gateway []";
     PullRequests_Get := fun _ _ _ _ => inr "GET: 502 Bad Gateway []";
     Git_DeleteRef := fun _ _ _ _ => Some "DELETE: 502 Bad Gateway []" |}.

(** A page that announces itself as the last one and still names a next. *)
Definition lastButNext : Client :=
  {| Activity_ListNotifications :=
       fun _ _ => inl ([Fixture.note42], {| NextPage := 2; LastPage := 1 |});
     PullRequests_Get := fun _ _ _ _ => inl Fixture.pr42;
     Git_DeleteRef := fun _ _ _ _ => None |}.


(** A deletion answered 422 for another reason than a missing reference. *)
Definition unprocessable : DeleteFailure :=
  {| failedURL := "https://api.github.com/repos/bot/tool/git/refs/heads/feature-x";
     statusCode := 422;
     message := "Validation Failed" |}.

(** A deletion answered 500 with a message that quotes a 422. *)
Definition upstream : DeleteFailure :=
  {| failedURL := "https://api.github.com/repos/bot/tool/git/refs/heads/feature-x";
     statusCode := 500;
     message := "upstream answered 422 twice" |}.

(** A deletion answered 404. *)
Definition absent : DeleteFailure :=
  {| failedURL := "https://api.github.com/repos/bot/tool/git/refs/heads/feature-x";
     statusCode := 404;
     message := "Not Found" |}.

(** A deletion of a reference that does not exist, as GitHub answers it. *)
Definition missing : DeleteFailure :=
  {| failedURL := "https://api.github.com/repos/bot/tool/git/refs/heads/feature-x";
     statusCode := 422;
     message := "Reference does not exist" |}.

(** Every deletion fails as [f] says. *)
Definition failing (f : DeleteFailure) : Client :=
  {| Activity_ListNotifications :=
       fun _ _ => inl ([], {| NextPage := 0; LastPage := 0 |});
     PullRequests_Get := fun _ _ _ _ => inr "GET: 404 Not Found []";
     Git_DeleteRef := fun _ _ _ _ => Some (failureText f) |}.

(** An issue notification. *)
Definition noteIssue : Notification :=
  {| Subject := Some {| SubjectType := Some "Issue";
                        URL := Some "https://api.github.com/repos/up/tool/issues/7" |};
     NRepository := Some (Fixture.repoOf "up" "tool") |}.

(** A world whose watermark was set at time 500. *)
Definition later : World := {| lastChecked := 500; clock := 1000; trace := [] |}.

Definition flags (token : string) (version webhook : bool) : Startup.Flags :=
  {| Startup.token := token;
     Startup.interval := "30s";
     Startup.debug := false;
     Startup.version := version;
     Startup.webhook := webhook |}.

(** A stand-in for [time.ParseDuration] that knows "30s" only. *)
Definition parse30s (text : string) : Z + string :=
  if (text =? "30s")%string then inl 30000000000
  else inr "time: invalid duration".

End Sample.

(** * Properties *)

Unset Implicit Arguments.

(** ** Worlds and histories *)

Lemma issued_emit (w : World) (evs : list Event) : issued w (emit evs w) = evs.
Proof.
  unfold issued, emit; simpl.
  induction (trace w) as [|e t IH]; simpl; auto.
Qed.

Lemma issued_same (w : World) : issued w w = [].
Proof.
  unfold issued. induction (trace w) as [|e t IH]; simpl; auto.
Qed.

Lemma emit_emit (w : World) (a b : list Event) :
  emit b (emit a w) = emit (a ++ b) w.
Proof. unfold emit; simpl. now rewrite app_assoc. Qed.

Lemma emit_nil (w : World) : emit [] w = w.
Proof. destruct w; unfold emit; simpl. now rewrite app_nil_r. Qed.

(** ** The library functions on the inputs of [handleNotification] *)

Lemma Split_subject_url :
  strings.Split "https://api.github.com/repos/up/tool/pulls/99" "/"
  = ["https:"; ""; "api.github.com"; "repos"; "up"; "tool"; "pulls"; "99"].
Proof. reflexivity. Qed.

Lemma Atoi_samples :
  strconv.Atoi "99" = inl 99
  /\ strconv.Atoi "-7" = inl (-7)
  /\ strconv.Atoi "" = inr (NumError "Atoi" "" ErrSyntax)
  /\ strconv.Atoi "pulls" = inr (NumError "Atoi" "pulls" ErrSyntax)
  /\ strconv.Atoi "9223372036854775807" = inl 9223372036854775807
  /\ strconv.Atoi "9223372036854775808"
     = inr (NumError "Atoi" "9223372036854775808" ErrRange).
Proof. repeat split; reflexivity. Qed.

Lemma Replace_hash :
  strings.Replace "heads/fix#12" "#" "%23" = "heads/fix%2312".
Proof. reflexivity. Qed.

(** ** [strings.Replace] leaves a string without the byte alone *)

Lemma Replace_absent (s : string) (old : ascii) (new : string) :
  strings.Contains s (String old EmptyString) = false ->
  strings.Replace s old new = s.
Proof.
  induction s as [|c s IH]; simpl; auto.
  intros H. apply orb_false_elim in H as [Hp Hc].
  destruct (ascii_dec old c) as [->|Hne].
  - destruct s; discriminate.
  - destruct (Ascii.eqb_spec c old) as [->|_]; [congruence|].
    now rewrite IH.
Qed.

(** ** The decision engine *)

(** An eligible pull request takes the deletion path. *)
Lemma closePR_eligible client username pr h r o branch name w :
  State pr = Some "closed" -> Merged pr = Some true ->
  Head pr = Some h -> Ref h = Some branch -> Repo h = Some r ->
  Owner r = Some o -> Login o = Some username -> Name r = Some name ->
  branch <> "master" ->
  closePR client username pr w = deletion client username name branch w.
Proof.
  intros HS HM HH HR HRepo HO HL HN Hb.
  unfold closePR, deletion, bind, deref, ret, DeleteRef, log, notFound.
  rewrite HS; simpl. rewrite HM, HH; simpl. rewrite HR, HRepo, HO, HL; simpl.
  rewrite String.eqb_refl.
  apply String.eqb_neq in Hb. rewrite Hb; simpl. rewrite HN.
  destruct (Git_DeleteRef client (trace w) username name _) as [msg|]; simpl.
  - destruct (strings.Contains msg " 422 "); simpl; [|reflexivity].
    now rewrite emit_emit.
  - now rewrite emit_emit.
Qed.

(** Any other pull request leaves the world as it was. *)
Lemma closePR_cases client username pr w :
  snd (closePR client username pr w) = w
  \/ exists h r o branch name,
       State pr = Some "closed" /\ Merged pr = Some true /\
       Head pr = Some h /\ Ref h = Some branch /\ Repo h = Some r /\
       Owner r = Some o /\ Login o = Some username /\ Name r = Some name /\
       branch <> "master".
Proof.
  unfold closePR, bind, deref, ret, panic.
  destruct (State pr) as [s|] eqn:HS; [|now left].
  destruct (String.eqb_spec s "closed") as [->|]; [|now left].
  destruct (Merged pr) as [[|]|] eqn:HM; try now left.
  destruct (Head pr) as [h|] eqn:HH; [|now left].
  destruct (Ref h) as [b|] eqn:HR; [|now left].
  destruct (Repo h) as [r|] eqn:HRepo; [|now left].
  destruct (Owner r) as [o|] eqn:HO; [|now left].
  destruct (Login o) as [l|] eqn:HL; [|now left].
  destruct (String.eqb_spec l username) as [->|]; [|now left].
  destruct (String.eqb_spec b "master") as [->|Hb]; [now left|].
  destruct (Name r) as [n|] eqn:HN; [|now left].
  right. exists h, r, o, b, n. repeat split; auto.
Qed.

Lemma deletion_issued client username name branch w :
  exists evs,
    snd (deletion client username name branch w) = emit evs w
    /\ deletions evs
       = [(username, name, strings.Replace ("heads/" ++ branch) "#" "%23")].
Proof.
  unfold deletion.
  destruct (Git_DeleteRef client (trace w) username name _) as [msg|];
    [destruct (notFound msg)|]; eexists; split; reflexivity.
Qed.

(** [closePR] only ever adds to the history. *)
Lemma closePR_emits client username pr w :
  exists evs, snd (closePR client username pr w) = emit evs w.
Proof.
  destruct (closePR_cases client username pr w)
    as [E|(h & r & o & b & n & HS & HM & HH & HR & HRepo & HO & HL & HN & Hb)].
  - exists []. now rewrite emit_nil.
  - rewrite (closePR_eligible client username pr h r o b n w
               HS HM HH HR HRepo HO HL HN Hb).
    destruct (deletion_issued client username n b w) as (evs & E & _).
    now exists evs.
Qed.

(** ** The text of a failed deletion *)

Lemma prefix_app (s t : string) : String.prefix s (s ++ t) = true.
Proof.
  induction s as [|c s IH]; simpl.
  - now destruct t.
  - destruct (ascii_dec c c) as [_|N]; [exact IH|congruence].
Qed.

Lemma Contains_behind (a s sub : string) :
  strings.Contains s sub = true -> strings.Contains (a ++ s) sub = true.
Proof.
  intros H. induction a as [|c a IH]; [exact H|].
  change (String c a ++ s) with (String c (a ++ s)).
  simpl. rewrite IH. apply orb_true_r.
Qed.

Lemma Contains_prefix (s sub : string) :
  String.prefix sub s = true -> strings.Contains s sub = true.
Proof. intros H. destruct s; cbn [strings.Contains]; now rewrite H. Qed.

(** Every answer with status 422, whatever its message, passes the test of
    line 176. *)
Lemma failureText_422 (f : DeleteFailure) :
  statusCode f = 422 -> notFound (failureText f) = true.
Proof.
  intros E. unfold notFound, failureText. rewrite E.
  apply Contains_behind, Contains_behind.
  change (": " ++ decimal 422 ++ " " ++ message f ++ " []")
    with (String ":" (" 422 " ++ message f ++ " []")).
  apply (Contains_behind ":"), Contains_prefix, prefix_app.
Qed.

Section EligiblePullRequest.

Variables (client : Client) (username : string) (pr : PullRequest).
Variables (h : PullRequestBranch) (r : Repository) (o : User).
Variables (branch name : string).

Hypothesis closed : State pr = Some "closed".
Hypothesis merged : Merged pr = Some true.
Hypothesis head : Head pr = Some h.
Hypothesis headRef : Ref h = Some branch.
Hypothesis headRepoSet : Repo h = Some r.
Hypothesis ownerSet : Owner r = Some o.
Hypothesis ownLogin : Login o = Some username.
Hypothesis repoName : Name r = Some name.
Hypothesis notMaster : branch <> "master".

(** C1, amended.  A closed, merged pull request whose head repository is
    present, named and owned by the bot login, and whose head branch is not
    "master", makes [closePR] issue exactly one branch deletion: owner the bot
    login, repository the head repository's name, reference "heads/" followed
    by the head branch name with every "#" replaced by "%23".  That
    reference is "heads/" followed by the branch name itself when the name
    holds no "#". *)
Theorem closePR_deletes_head_branch (w : World) :
  deletions (issued w (snd (closePR client username pr w)))
  = [(username, name, strings.Replace ("heads/" ++ branch) "#" "%23")]
  /\ (strings.Contains branch "#" = false ->
      strings.Replace ("heads/" ++ branch) "#" "%23" = "heads/" ++ branch).
Proof.
  split.
  - rewrite (closePR_eligible client username pr h r o branch name w
               closed merged head headRef headRepoSet ownerSet ownLogin
               repoName notMaster).
    destruct (deletion_issued client username name branch w) as (evs & E & D).
    now rewrite E, issued_emit.
  - intros Hno. simpl. now rewrite (Replace_absent _ _ _ Hno).
Qed.

(** C5, amended.  When [closePR] issues the deletion and the deletion fails
    with an error whose text holds " 422 " (the test of line 176), [closePR]
    returns no error: so for the 422 "Reference does not exist" that GitHub
    answers for a missing branch, and so for every other answer with status
    422.  A deletion error whose text does not hold " 422 " is returned to
    the caller.  So two evaluations in a row of the same eligible pull
    request, the second deletion answered with such a text (and the first
    not refused with another), both return no error. *)
Theorem closePR_tolerates_missing_branch (w : World) :
  let ref := strings.Replace ("heads/" ++ branch) "#" "%23" in
  let answer (v : World) := Git_DeleteRef client (trace v) username name ref in
  deletions (issued w (snd (closePR client username pr w)))
  = [(username, name, ref)]
  /\ (forall msg,
         answer w = Some msg ->
         fst (closePR client username pr w)
         = Ret (if notFound msg then None else Some (ClientError msg)))
  /\ (forall failure,
         answer w = Some (failureText failure) ->
         statusCode failure = 422 ->
         fst (closePR client username pr w) = Ret None)
  /\ (forall msg,
         (answer w = None \/ exists m, answer w = Some m /\ notFound m = true) ->
         answer (snd (closePR client username pr w)) = Some msg ->
         notFound msg = true ->
         fst (closeTwice client username pr w) = Ret (None, None)).
Proof.
  intros ref answer.
  pose proof (fun v => closePR_eligible client username pr h r o branch name v
                         closed merged head headRef headRepoSet ownerSet
                         ownLogin repoName notMaster) as E.
  split; [|split; [|split]].
  - rewrite E. destruct (deletion_issued client username name branch w)
      as (evs & Ew & D).
    now rewrite Ew, issued_emit.
  - intros msg A. rewrite E. unfold deletion. fold ref.
    unfold answer in A. rewrite A. now destruct (notFound msg).
  - intros failure A S422. rewrite E. unfold deletion. fold ref.
    unfold answer in A. rewrite A.
    now rewrite (failureText_422 failure S422).
  - intros msg A1 A2 NF. unfold closeTwice, bind, ret.
    assert (F : fst (closePR client username pr w) = Ret None).
    { rewrite E. unfold deletion. fold ref. unfold answer in A1.
      destruct A1 as [A1|(m & A1 & NF1)]; rewrite A1; [|rewrite NF1];
        reflexivity. }
    destruct (closePR client username pr w) as [out w1] eqn:R1.
    simpl in F, A2. subst out.
    rewrite E. unfold deletion. fold ref. unfold answer in A2.
    rewrite A2, NF. reflexivity.
Qed.

End EligiblePullRequest.

(** The claim C1 as first stated, with the reference "heads/" followed by the
    branch name as it is, fails for a branch name that holds a "#": for
    [Fixture.prHash], a merged pull request of the bot from its branch
    "fix#12", the deletion names "heads/fix%2312". *)
Lemma closePR_ref_not_verbatim :
  ~ (forall client username pr h r o branch name w,
        State pr = Some "closed" -> Merged pr = Some true ->
        Head pr = Some h -> Ref h = Some branch -> Repo h = Some r ->
        Owner r = Some o -> Login o = Some username -> Name r = Some name ->
        branch <> "master" ->
        deletions (issued w (snd (closePR client username pr w)))
        = [(username, name, "heads/" ++ branch)]).
Proof.
  intros claim.
  specialize (claim Fixture.quiet "bot" Fixture.prHash _ _ _ "fix#12" "tool"
                Fixture.start eq_refl eq_refl eq_refl eq_refl eq_refl eq_refl
                eq_refl eq_refl).
  vm_compute in claim.
  assert (N : "fix#12" <> "master") by discriminate.
  specialize (claim N). discriminate claim.
Qed.

Lemma closePR_deletes_head_branch_witness :
  deletions (issued Fixture.start
               (snd (closePR Fixture.quiet "bot" Fixture.pr42 Fixture.start)))
  = [("bot", "tool", "heads/feature-x")].
Proof.
  assert (N : "feature-x" <> "master") by discriminate.
  exact (proj1 (closePR_deletes_head_branch Fixture.quiet "bot" Fixture.pr42
                  _ _ _ "feature-x" "tool" eq_refl eq_refl eq_refl eq_refl
                  eq_refl eq_refl eq_refl eq_refl N Fixture.start)).
Defined.

(** The claim C5 as first stated fails for a deletion error that is not the
    report of a missing reference and whose text still holds " 422 ":
    [Sample.unprocessable], a 422 "Validation Failed", is not returned to the
    caller. *)
Lemma closePR_swallows_other_422 :
  ~ (forall client username pr h r o branch name w failure,
        State pr = Some "closed" -> Merged pr = Some true ->
        Head pr = Some h -> Ref h = Some branch -> Repo h = Some r ->
        Owner r = Some o -> Login o = Some username -> Name r = Some name ->
        branch <> "master" ->
        Git_DeleteRef client (trace w) username name
          (strings.Replace ("heads/" ++ branch) "#" "%23")
        = Some (failureText failure) ->
        fst (closePR client username pr w)
        = Ret (if refMissing failure then None
               else Some (ClientError (failureText failure)))).
Proof.
  intros claim.
  assert (N : "feature-x" <> "master") by discriminate.
  specialize (claim (Sample.failing Sample.unprocessable) "bot" Fixture.pr42
                _ _ _ "feature-x" "tool" Fixture.start Sample.unprocessable
                eq_refl eq_refl eq_refl eq_refl eq_refl eq_refl eq_refl
                eq_refl N eq_refl).
  vm_compute in claim. discriminate claim.
Qed.

(** What [closePR] returns for four answers to the deletion: the report of
    a missing reference, a 422 for another reason and a 500 whose message
    quotes a 422 are taken for a branch that is gone; a 404 is returned. *)
Lemma closePR_on_sample_failures :
  fst (closePR (Sample.failing Sample.missing) "bot" Fixture.pr42
         Fixture.start) = Ret None
  /\ fst (closePR (Sample.failing Sample.unprocessable) "bot" Fixture.pr42
            Fixture.start) = Ret None
  /\ fst (closePR (Sample.failing Sample.upstream) "bot" Fixture.pr42
            Fixture.start) = Ret None
  /\ fst (closePR (Sample.failing Sample.absent) "bot" Fixture.pr42
            Fixture.start)
     = Ret (Some (ClientError (failureText Sample.absent))).
Proof. repeat split; vm_compute; reflexivity. Qed.

Lemma closePR_tolerates_missing_branch_witness :
  fst (closePR Fixture.forbidden "bot" Fixture.pr42 Fixture.start)
  = Ret (Some (ClientError "DELETE: 403 Forbidden []"))
  /\ fst (closePR (Sample.failing Sample.missing) "bot" Fixture.pr42
            Fixture.start) = Ret None
  /\ fst (closeTwice Fixture.once "bot" Fixture.pr42 Fixture.start)
     = Ret (None, None).
Proof.
  assert (N : "feature-x" <> "master") by discriminate.
  split; [|split].
  - exact (proj1 (proj2
             (closePR_tolerates_missing_branch Fixture.forbidden "bot"
                Fixture.pr42 _ _ _ "feature-x" "tool" eq_refl eq_refl eq_refl
                eq_refl eq_refl eq_refl eq_refl eq_refl N Fixture.start))
             "DELETE: 403 Forbidden []" eq_refl).
  - exact (proj1 (proj2 (proj2
             (closePR_tolerates_missing_branch
                (Sample.failing Sample.missing) "bot"
                Fixture.pr42 _ _ _ "feature-x" "tool" eq_refl eq_refl eq_refl
                eq_refl eq_refl eq_refl eq_refl eq_refl N Fixture.start)))
             Sample.missing eq_refl eq_refl).
  - exact (proj2 (proj2 (proj2
             (closePR_tolerates_missing_branch Fixture.once "bot"
                Fixture.pr42 _ _ _ "feature-x" "tool" eq_refl eq_refl eq_refl
                eq_refl eq_refl eq_refl eq_refl eq_refl N Fixture.start)))
             "DELETE: 422 Reference does not exist []"
             (or_introl eq_refl) eq_refl eq_refl).
Defined.

(** C2.  A pull request whose head branch is "master" never makes [closePR]
    issue a branch deletion, whatever its state, merge flag and owner. *)
Theorem closePR_never_deletes_master client username pr h w :
  Head pr = Some h -> Ref h = Some "master" ->
  deletions (issued w (snd (closePR client username pr w))) = [].
Proof.
  intros HH HR.
  destruct (closePR_cases client username pr w)
    as [E|(h' & r & o & b & n & _ & _ & HH' & HR' & _ & _ & _ & _ & Hb)].
  - now rewrite E, issued_same.
  - congruence.
Qed.

Lemma closePR_never_deletes_master_witness :
  deletions (issued Fixture.start
               (snd (closePR Fixture.quiet "bot" Fixture.prMaster
                       Fixture.start)))
  = [].
Proof.
  exact (closePR_never_deletes_master Fixture.quiet "bot" Fixture.prMaster _
           Fixture.start eq_refl eq_refl).
Defined.

(** C3.  A pull request whose head repository's owner login is not the bot
    login (or is not set at all) never makes [closePR] issue a branch
    deletion, whatever its state and merge flag. *)
Theorem closePR_never_deletes_foreign client username pr w :
  headOwner pr <> Some username ->
  deletions (issued w (snd (closePR client username pr w))) = [].
Proof.
  intros Hne.
  destruct (closePR_cases client username pr w)
    as [E|(h & r & o & b & n & _ & _ & HH & _ & HRepo & HO & HL & _ & _)].
  - now rewrite E, issued_same.
  - exfalso. apply Hne. unfold headOwner. now rewrite HH, HRepo, HO.
Qed.

Lemma closePR_never_deletes_foreign_witness :
  deletions (issued Fixture.start
               (snd (closePR Fixture.quiet "bot" Fixture.prForeign
                       Fixture.start)))
  = [].
Proof.
  apply (closePR_never_deletes_foreign Fixture.quiet "bot" Fixture.prForeign
           Fixture.start).
  vm_compute. discriminate.
Defined.

(** The claim C4 as first stated fails where a pointer [closePR] dereferences
    on its way is nil: [Fixture.prNoRef] is merged and closed with no head
    repository and no head branch name, and [closePR] panics on it at line
    164 instead of skipping. *)
Lemma closePR_skip_needs_pointers :
  ~ (forall client username pr w,
        Merged pr = Some false
        \/ (exists s, State pr = Some s /\ s <> "closed")
        \/ headRepo pr = None ->
        deletions (issued w (snd (closePR client username pr w))) = []
        /\ fst (closePR client username pr w) = Ret None).
Proof.
  intros claim.
  destruct (claim Fixture.quiet "bot" Fixture.prNoRef Fixture.start
              (or_intror (or_intror eq_refl))) as [_ R].
  vm_compute in R. discriminate R.
Qed.

(** Likewise [Fixture.prNoState], not merged and without a state, makes
    [closePR] panic at line 161. *)
Lemma closePR_without_state :
  Merged Fixture.prNoState = Some false
  /\ closePR Fixture.quiet "bot" Fixture.prNoState Fixture.start
     = (Panic, Fixture.start).
Proof. split; reflexivity. Qed.

(** C4, amended.  A pull request that is not merged, or whose state is not
    "closed", or whose head repository is absent, never makes [closePR] issue
    a branch deletion.  When the pointers [closePR] dereferences on its way
    are set ([readable]), [closePR] returns no error and leaves the world as
    it was; when one of them is nil, [closePR] panics instead of returning. *)
Theorem closePR_skips client username pr w :
  Merged pr = Some false
  \/ (exists s, State pr = Some s /\ s <> "closed")
  \/ headRepo pr = None ->
  deletions (issued w (snd (closePR client username pr w))) = []
  /\ (readable pr = true -> closePR client username pr w = (Ret None, w))
  /\ (readable pr = false -> closePR client username pr w = (Panic, w)).
Proof.
  intros Hskip. split; [|split].
  - destruct (closePR_cases client username pr w)
      as [E|(h & r & o & b & n & HS & HM & HH & _ & HRepo & _)].
    + now rewrite E, issued_same.
    + exfalso. destruct Hskip as [F|[(s & HS' & Hs)|NR]]; try congruence.
      unfold headRepo in NR. rewrite HH in NR. congruence.
  - unfold readable, closePR, bind, deref, ret.
    destruct (State pr) as [s|] eqn:HS; [|discriminate].
    destruct (String.eqb_spec s "closed") as [->|Hs]; [|reflexivity].
    destruct (Merged pr) as [[|]|] eqn:HM; try discriminate; [|reflexivity].
    destruct (Head pr) as [h|] eqn:HH; [|discriminate].
    destruct (Ref h) as [b|] eqn:HR; [|discriminate].
    intros _.
    destruct Hskip as [F|[(s & HS' & Hs)|NR]]; try congruence.
    unfold headRepo in NR. rewrite HH in NR. now rewrite NR.
  - unfold readable, closePR, bind, deref, ret, panic.
    destruct (State pr) as [s|]; [|reflexivity].
    destruct (s =? "closed")%string; [|discriminate].
    destruct (Merged pr) as [[|]|]; try discriminate; [|reflexivity].
    destruct (Head pr) as [h|]; [|reflexivity].
    destruct (Ref h) as [b|]; [discriminate|reflexivity].
Qed.

Lemma closePR_skips_witness :
  closePR Fixture.quiet "bot" Fixture.prOpen Fixture.start
  = (Ret None, Fixture.start)
  /\ closePR Fixture.quiet "bot" Fixture.prNoRepo Fixture.start
     = (Ret None, Fixture.start)
  /\ closePR Fixture.quiet "bot" Fixture.prNoState Fixture.start
     = (Panic, Fixture.start)
  /\ closePR Fixture.quiet "bot" Fixture.prNoRef Fixture.start
     = (Panic, Fixture.start).
Proof.
  split; [|split; [|split]].
  - exact (proj1 (proj2 (closePR_skips Fixture.quiet "bot" Fixture.prOpen
                           Fixture.start (or_introl eq_refl))) eq_refl).
  - exact (proj1 (proj2 (closePR_skips Fixture.quiet "bot" Fixture.prNoRepo
                           Fixture.start (or_intror (or_intror eq_refl))))
             eq_refl).
  - exact (proj2 (proj2 (closePR_skips Fixture.quiet "bot" Fixture.prNoState
                           Fixture.start (or_introl eq_refl))) eq_refl).
  - exact (proj2 (proj2 (closePR_skips Fixture.quiet "bot" Fixture.prNoRef
                           Fixture.start (or_intror (or_intror eq_refl))))
             eq_refl).
Defined.

(** C10.  Once the merged-and-closed check has passed, [closePR] reads
    [*pr.Head.Ref] (line 164) before it looks at the head repository: with
    [pr.Head] or [pr.Head.Ref] nil it panics, whether the head repository is
    present or not.  With both set, that read succeeds: an absent head
    repository or owner then gives a return without error and without
    effect, and a panic can only come from the later reads of the owner's
    login or the repository's name. *)
Theorem closePR_reads_branch_first client username pr w :
  State pr = Some "closed" -> Merged pr = Some true ->
  ((Head pr = None \/ exists h, Head pr = Some h /\ Ref h = None) ->
   closePR client username pr w = (Panic, w))
  /\ (forall h branch,
         Head pr = Some h -> Ref h = Some branch ->
         (Repo h = None -> closePR client username pr w = (Ret None, w))
         /\ (forall r, Repo h = Some r -> Owner r = None ->
                       closePR client username pr w = (Ret None, w))
         /\ (fst (closePR client username pr w) = Panic ->
             exists r o, Repo h = Some r /\ Owner r = Some o
                         /\ (Login o = None \/ Name r = None))).
Proof.
  intros HS HM. unfold closePR, bind, deref, ret, panic.
  rewrite HS; simpl. rewrite HM. split.
  - intros [HH|(h & HH & HR)]; rewrite HH; [reflexivity|].
    now rewrite HR.
  - intros h branch HH HR. rewrite HH, HR. repeat split.
    + now intros ->.
    + now intros r -> ->.
    + destruct (Repo h) as [r|] eqn:HRepo; [|discriminate].
      destruct (Owner r) as [o|] eqn:HO; [|discriminate].
      destruct (Login o) as [l|] eqn:HL; [|intros _; exists r, o; auto].
      simpl.
      destruct ((l =? username)%string && negb (branch =? "master")%string);
        [|discriminate].
      destruct (Name r) as [n|] eqn:HN; [|intros _; exists r, o; auto].
      unfold DeleteRef, log.
      destruct (Git_DeleteRef client (trace w) username n _) as [msg|]; simpl;
        [destruct (strings.Contains msg " 422 ")|]; discriminate.
Qed.

Lemma closePR_reads_branch_first_witness :
  closePR Fixture.quiet "bot" Fixture.prNoRef Fixture.start
  = (Panic, Fixture.start)
  /\ closePR Fixture.quiet "bot" Fixture.prNoRepo Fixture.start
     = (Ret None, Fixture.start).
Proof.
  pose proof (closePR_reads_branch_first Fixture.quiet "bot" Fixture.prNoRef
                Fixture.start eq_refl eq_refl) as [P _].
  pose proof (closePR_reads_branch_first Fixture.quiet "bot" Fixture.prNoRepo
                Fixture.start eq_refl eq_refl) as [_ R].
  split.
  - apply P. right. eexists. split; reflexivity.
  - exact (proj1 (R _ "feature-x" eq_refl eq_refl) eq_refl).
Defined.
(** ** The poller *)

Lemma retrievals_app (a b : list Event) :
  retrievals (a ++ b) = (retrievals a ++ retrievals b)%list.
Proof.
  induction a as [|e a IH]; simpl; auto.
  destruct e; simpl; auto. now rewrite IH.
Qed.

Lemma listings_app (a b : list Event) :
  listings (a ++ b) = (listings a ++ listings b)%list.
Proof.
  induction a as [|e a IH]; simpl; auto.
  destruct e; simpl; auto. now rewrite IH.
Qed.

Lemma baseline_emit (w : World) (evs : list Event) :
  baseline (emit evs w) = emit evs (baseline w).
Proof. unfold baseline, emit; simpl. now destruct (IsZero (lastChecked w)). Qed.

Lemma baseline_twice (w : World) : baseline (baseline w) = baseline w.
Proof.
  unfold baseline.
  destruct (IsZero (lastChecked w)) eqn:E; simpl.
  - now destruct (IsZero (clock w)).
  - now rewrite E.
Qed.

Lemma trace_baseline (w : World) : trace (baseline w) = trace w.
Proof. unfold baseline. now destruct (IsZero (lastChecked w)). Qed.

Lemma issued_emit_baseline (w : World) (evs : list Event) :
  issued w (emit evs (baseline w)) = evs.
Proof.
  unfold issued, emit; simpl. rewrite trace_baseline.
  induction (trace w) as [|e t IH]; simpl; auto.
Qed.

(** [closePR] neither lists notifications nor retrieves pull requests. *)
Lemma closePR_quiet client username pr w :
  exists evs,
    snd (closePR client username pr w) = emit evs w
    /\ retrievals evs = [] /\ listings evs = [].
Proof.
  destruct (closePR_cases client username pr w)
    as [E|(h & r & o & b & n & HS & HM & HH & HR & HRepo & HO & HL & HN & Hb)].
  - exists []. now rewrite emit_nil.
  - rewrite (closePR_eligible client username pr h r o b n w
               HS HM HH HR HRepo HO HL HN Hb).
    unfold deletion.
    destruct (Git_DeleteRef client (trace w) username n _) as [msg|];
      [destruct (notFound msg)|]; eexists; repeat split; reflexivity.
Qed.

Lemma handleNotification_emits client n username w :
  exists evs, snd (handleNotification client n username w) = emit evs w.
Proof.
  assert (Z0 : exists evs, w = emit evs w)
    by (exists []; now rewrite emit_nil).
  unfold handleNotification, lastPart, Get.
  unfold bind, deref, ret, panic.
  destruct (Subject n) as [subject|]; cbn beta iota; [|exact Z0].
  destruct (SubjectType subject) as [type|]; cbn beta iota; [|exact Z0].
  destruct (type =? "PullRequest")%string; cbn beta iota; [|exact Z0].
  destruct (URL subject) as [url|]; cbn beta iota; [|exact Z0].
  destruct (nth_error _ _) as [last|]; cbn beta iota; [|exact Z0].
  destruct (strconv.Atoi last) as [id|err]; cbn beta iota; [|exact Z0].
  destruct (NRepository n) as [repository|]; cbn beta iota; [|exact Z0].
  destruct (Owner repository) as [o|]; cbn beta iota; [|exact Z0].
  destruct (Login o) as [l|]; cbn beta iota; [|exact Z0].
  destruct (Name repository) as [name|]; cbn beta iota; [|exact Z0].
  destruct (PullRequests_Get client (trace w) l name id) as [pr|msg];
    cbn beta iota.
  - destruct (closePR_emits client username pr
                (emit [EvPullRequestsGet l name id] w)) as (evs & E).
    rewrite E, emit_emit. eauto.
  - simpl. eauto.
Qed.

Lemma handleAll_emits client ns username :
  forall w, exists evs, snd (handleAll client ns username w) = emit evs w.
Proof.
  induction ns as [|n ns IH]; intros w; simpl.
  - exists []. unfold ret. now rewrite emit_nil.
  - unfold bind.
    destruct (handleNotification_emits client n username w) as (evs & E).
    destruct (handleNotification client n username w) as [[[e|]| | |] w1];
      simpl in E; subst w1; simpl; eauto.
    destruct (IH (emit evs w)) as (evs' & E').
    rewrite E', emit_emit. eauto.
Qed.

(** One unfolding of [getNotifications]. *)
Lemma getNotifications_step client username fuel page perPage w :
  getNotifications (S fuel) client username page perPage w
  = let opt := options (lastChecked w) page perPage in
    let listed := emit [EvListNotifications opt] (baseline w) in
    match Activity_ListNotifications client (trace w) opt with
    | inr msg => (Ret (Some (ClientError msg)), listed)
    | inl (notifications, resp) =>
        match handleAll client notifications username listed with
        | (Ret None, handled) =>
            if (page =? LastPage resp) || (NextPage resp =? 0)
            then (Ret None, handled)
            else getNotifications fuel client username (NextPage resp) perPage
                   handled
        | (Ret (Some e), handled) => (Ret (Some e), handled)
        | (Panic, handled) => (Panic, handled)
        | (Exit c, handled) => (Exit c, handled)
        | (OutOfFuel, handled) => (OutOfFuel, handled)
        end
    end.
Proof.
  simpl. unfold bind, prepare, ListNotifications, ret. cbn beta iota.
  rewrite trace_baseline.
  destruct (Activity_ListNotifications client _ _) as [[ns r]|msg];
    [|reflexivity].
  destruct (handleAll client ns username _) as [[[e|]| | |] w1];
    try reflexivity.
  now destruct ((page =? LastPage r) || (NextPage r =? 0)).
Qed.

(** A call of [getNotifications] that has fuel starts with the listing built
    from the watermark as it was on entry, and only adds to the history of
    the world [baseline] gives. *)
Lemma getNotifications_emits client username perPage fuel :
  forall page w,
  exists rest,
    snd (getNotifications (S fuel) client username page perPage w)
    = emit (EvListNotifications (options (lastChecked w) page perPage) :: rest)
        (baseline w).
Proof.
  induction fuel as [|fuel IH]; intros page w;
    rewrite getNotifications_step; cbn zeta;
    (destruct (Activity_ListNotifications client _ _) as [[ns r]|msg];
     [|eexists; reflexivity]);
    destruct (handleAll_emits client ns username
                (emit [EvListNotifications
                         (options (lastChecked w) page perPage)] (baseline w)))
      as (evs & E);
    (destruct (handleAll client ns username _) as [[[e|]| | |] w1];
     cbn [snd] in E; subst w1; rewrite emit_emit; cbn [app];
     try (eexists; reflexivity));
    (destruct ((page =? LastPage r) || (NextPage r =? 0));
     [eexists; reflexivity|]).
  - simpl. eexists; reflexivity.
  - destruct (IH (NextPage r)
                (emit (EvListNotifications
                         (options (lastChecked w) page perPage) :: evs)
                   (baseline w))) as (rest & E').
    rewrite E'. rewrite baseline_emit, baseline_twice, emit_emit.
    cbn [app]. eexists; reflexivity.
Qed.

(** C6.  On a first call, with the watermark still zero, [getNotifications]
    sets the watermark to the current time before it lists notifications, but
    the listing it then issues carries the zero time as its "since": the
    options were built (lines 198-205) before the watermark was set (lines
    206-208). *)
Theorem getNotifications_first_fetch client username fuel page perPage w :
  IsZero (lastChecked w) = true ->
  let w' := snd (getNotifications (S fuel) client username page perPage w) in
  lastChecked w' = clock w
  /\ exists rest,
       issued w w' = EvListNotifications (options 0 page perPage) :: rest.
Proof.
  intros Z w'. subst w'.
  destruct (getNotifications_emits client username perPage fuel page w)
    as (rest & E).
  rewrite E. split.
  - unfold emit, baseline; simpl. now rewrite Z.
  - exists rest. rewrite issued_emit_baseline.
    apply Z.eqb_eq in Z. now rewrite Z.
Qed.

Lemma getNotifications_first_fetch_witness :
  lastChecked
    (snd (getNotifications 1 Fixture.quiet "bot" 1 20 Fixture.start)) = 1000
  /\ exists rest,
       issued Fixture.start
         (snd (getNotifications 1 Fixture.quiet "bot" 1 20 Fixture.start))
       = EvListNotifications
           {| All := true; Since := 0;
              Options := {| Page := 1; PerPage := 20 |} |} :: rest.
Proof.
  exact (getNotifications_first_fetch Fixture.quiet "bot" 0 1 20 Fixture.start
           eq_refl).
Defined.

(** On the first run over [Fixture.twoPages] the first page is listed with no
    watermark and the second with the time of the start. *)
Lemma first_run_listings :
  map Since
    (listings (issued Fixture.start
                 (snd (getNotifications 2 Fixture.paged "bot" 1 20
                         Fixture.start))))
  = [0; 1000].
Proof. vm_compute. reflexivity. Qed.

(** ** Pagination *)

Lemma handleNotification_resolves client username p w :
  resolves client p ->
  handleNotification client (note p) username w
  = closePR client username (pull p)
      (emit [EvPullRequestsGet (owner p) (repo p) (number p)] w).
Proof.
  intros (subject & url & last & repository & o
          & HS & HT & HU & HL & HA & HR & HO & HLo & HN & HG).
  unfold handleNotification, lastPart, Get.
  unfold bind, deref, ret.
  rewrite HS; cbn beta iota. rewrite HT; cbn beta iota.
  rewrite String.eqb_refl, HU; cbn beta iota.
  rewrite HL; cbn beta iota. rewrite HA, HR; cbn beta iota.
  rewrite HO; cbn beta iota. rewrite HLo; cbn beta iota.
  rewrite HN; cbn beta iota. now rewrite HG.
Qed.

Lemma evaluated_emits client username perPage feed :
  forall page w,
  exists evs,
    evaluated client username perPage page feed w
    = emit evs (match feed with [] => w | _ :: _ => baseline w end)
    /\ retrievals evs = map (fun p => (owner p, repo p, number p)) feed
    /\ List.length (listings evs) = List.length feed.
Proof.
  induction feed as [|p rest IH]; intros page w.
  - exists []. simpl. now rewrite emit_nil.
  - simpl.
    set (first := [EvListNotifications (options (lastChecked w) page perPage);
                   EvPullRequestsGet (owner p) (repo p) (number p)]).
    destruct (closePR_quiet client username (pull p) (emit first (baseline w)))
      as (evs1 & E1 & R1 & L1).
    rewrite E1, emit_emit.
    destruct (IH (NextPage (resp p)) (emit (first ++ evs1) (baseline w)))
      as (evs & E & R & L).
    rewrite E.
    assert (B : match rest with
                | [] => emit (first ++ evs1) (baseline w)
                | _ :: _ => baseline (emit (first ++ evs1) (baseline w))
                end
                = emit (first ++ evs1) (baseline w)).
    { destruct rest; [reflexivity|]. now rewrite baseline_emit, baseline_twice. }
    rewrite B, emit_emit. eexists. split; [reflexivity|].
    rewrite !retrievals_app, !listings_app, R1, L1, R. simpl.
    split; [reflexivity|]. now rewrite L.
Qed.

Lemma drain client username perPage feed :
  forall page fuel w,
    feed <> [] -> (List.length feed <= fuel)%nat ->
    serves client username perPage page feed ->
    getNotifications fuel client username page perPage w
    = (Ret None, evaluated client username perPage page feed w).
Proof.
  induction feed as [|p rest IH]; intros page fuel w NE LE S; [congruence|].
  destruct fuel as [|fuel]; [simpl in LE; lia|].
  destruct S as (HList & HRes & HEval & HNext & HRest).
  rewrite getNotifications_step; cbn zeta.
  rewrite HList. simpl handleAll. unfold bind at 1.
  rewrite (handleNotification_resolves client username p _ HRes), emit_emit.
  cbn [app].
  specialize (HEval (emit [EvListNotifications
                             (options (lastChecked w) page perPage);
                           EvPullRequestsGet (owner p) (repo p) (number p)]
                       (baseline w))).
  simpl evaluated.
  destruct (closePR client username (pull p) _) as [out w1].
  simpl in HEval. subst out. unfold ret. cbn [snd].
  destruct rest as [|q rest].
  - rewrite HNext, Z.eqb_refl, orb_true_r. reflexivity.
  - destruct HNext as [HN HL].
    apply Z.eqb_neq in HN. rewrite HN.
    assert (HL' : (page =? LastPage (resp p)) = false)
      by (apply Z.eqb_neq; congruence).
    rewrite HL'. cbn [orb].
    apply IH; [discriminate|simpl in *; lia|exact HRest].
Qed.

(** C7.  When the client serves a feed of N pages, N at least one, each with
    one pull-request notification whose resolution and evaluation succeed,
    one run of [getNotifications] from page 1 returns without error after
    one listing, one retrieval and one evaluation per page, each page being
    the one the response before it named as next, and stops behind the page
    that names no next page: N listings, and the N pull requests of the feed
    retrieved in the order of the pages. *)
Theorem poll_evaluates_every_page client username perPage feed fuel w :
  feed <> [] -> (List.length feed <= fuel)%nat ->
  serves client username perPage 1 feed ->
  let w' := evaluated client username perPage 1 feed w in
  getNotifications fuel client username 1 perPage w = (Ret None, w')
  /\ retrievals (issued w w')
     = map (fun p => (owner p, repo p, number p)) feed
  /\ List.length (listings (issued w w')) = List.length feed.
Proof.
  intros NE LE S w'. subst w'. split.
  - now apply drain.
  - destruct (evaluated_emits client username perPage feed 1 w)
      as (evs & E & R & L).
    destruct feed as [|p rest]; [congruence|].
    now rewrite E, issued_emit_baseline.
Qed.

Lemma poll_evaluates_every_page_witness :
  fst (getNotifications 2 Fixture.paged "bot" 1 20 Fixture.start) = Ret None
  /\ retrievals
       (issued Fixture.start
          (evaluated Fixture.paged "bot" 20 1 Fixture.twoPages Fixture.start))
     = [("up", "tool", 41); ("up", "tool", 42)].
Proof.
  assert (S : serves Fixture.paged "bot" 20 1 Fixture.twoPages).
  { split; [reflexivity|]. split.
    { do 5 eexists. repeat split; reflexivity. }
    split; [intros w; vm_compute; reflexivity|].
    split; [split; discriminate|].
    split; [reflexivity|]. split.
    { do 5 eexists. repeat split; reflexivity. }
    split; [intros w; vm_compute; reflexivity|].
    split; reflexivity. }
  assert (NE : Fixture.twoPages <> []) by discriminate.
  assert (LE : (List.length Fixture.twoPages <= 2)%nat) by (simpl; lia).
  pose proof (poll_evaluates_every_page Fixture.paged "bot" 20
                Fixture.twoPages 2 Fixture.start NE LE S) as (R & G & _).
  split.
  - now rewrite R.
  - exact G.
Defined.

(** ** Failures *)




(** ** The webhook receiver *)

(** The claim C9 as first stated fails for an event that is not a closing
    when a pointer read for the log line is nil: the body "opened" decodes
    to an opened pull request without a number, and the handler panics on
    [*evt.PullRequest.Number] (line 147) instead of logging. *)
Lemma buildHandler_skip_may_panic :
  ~ (forall unmarshal client username req body evt w,
        Body req = inl body -> unmarshal body = inl evt ->
        EPullRequest evt = None \/ Action evt <> "closed" ->
        exists line,
          buildHandler unmarshal client username req w
          = (Ret tt, emit [EvLog InfoLevel line] w)).
Proof.
  intros claim.
  assert (N : Action Fixture.evtOpened <> "closed") by discriminate.
  destruct (claim Fixture.decode Fixture.quiet "bot" {| Body := inl "opened" |}
              "opened" Fixture.evtOpened Fixture.start eq_refl eq_refl
              (or_intror N)) as (line & H).
  vm_compute in H. discriminate H.
Qed.

(** C9, amended.  A body that cannot be read, or that does not decode, makes
    the handler log a fatal line and exit the process with status 1.  A
    decoded event reaches [closePR] exactly when its pull request is present
    and its action is "closed".  Any other event reaches no branch deletion:
    without a pull request the handler logs an informational line; with a
    pull request and another action it logs the informational line naming
    the action, provided the pull request's number, the event's repository
    and the repository's full name that the line prints are present, and
    panics on the nil dereference of line 147 when one of them is absent. *)
Theorem buildHandler_dispatch unmarshal client username req w :
  let handled := buildHandler unmarshal client username req w in
  (forall msg,
      Body req = inr msg ->
      handled = (Exit 1, emit [EvLog FatalLevel LogReadFailed] w))
  /\ (forall body msg,
         Body req = inl body -> unmarshal body = inr msg ->
         handled = (Exit 1, emit [EvLog FatalLevel LogReadFailed] w))
  /\ (forall body evt,
         Body req = inl body -> unmarshal body = inl evt ->
         (EPullRequest evt = None ->
          handled = (Ret tt, emit [EvLog InfoLevel (LogSkipNonPR evt)] w))
         /\ (forall pr,
                EPullRequest evt = Some pr -> Action evt <> "closed" ->
                deletions (issued w (snd handled)) = []
                /\ (forall number repository fullName,
                       Number pr = Some number ->
                       ERepository evt = Some repository ->
                       FullName repository = Some fullName ->
                       handled
                       = (Ret tt,
                          emit [EvLog InfoLevel
                                  (LogSkipNotClosed number fullName
                                     (Action evt))]
                            w))
                /\ (Number pr = None
                    \/ ERepository evt = None
                    \/ (exists repository,
                           ERepository evt = Some repository
                           /\ FullName repository = None) ->
                    handled = (Panic, w)))
         /\ (forall pr,
                EPullRequest evt = Some pr -> Action evt = "closed" ->
                (fst (closePR client username pr w) = Ret None ->
                 handled = (Ret tt, snd (closePR client username pr w)))
                /\ forall e number repository fullName,
                     fst (closePR client username pr w) = Ret (Some e) ->
                     Number pr = Some number ->
                     ERepository evt = Some repository ->
                     FullName repository = Some fullName ->
                     handled
                     = (Ret tt,
                        emit [EvLog ErrorLevel
                                (LogCloseFailed number fullName e)]
                          (snd (closePR client username pr w))))).
Proof.
  intros handled. subst handled. unfold buildHandler.
  split; [|split].
  - intros msg ->. reflexivity.
  - intros body msg -> ->. reflexivity.
  - intros body evt -> ->. split; [|split].
    + intros ->. reflexivity.
    + intros pr -> NC. apply String.eqb_neq in NC. rewrite NC.
      unfold bind, deref, ret, panic, log. split; [|split].
      * destruct (Number pr) as [number|]; cbn beta iota;
          [|now rewrite issued_same].
        destruct (ERepository evt) as [repository|]; cbn beta iota;
          [|now rewrite issued_same].
        destruct (FullName repository) as [fullName|]; cbn beta iota;
          [|now rewrite issued_same].
        cbn [snd]. now rewrite issued_emit.
      * intros number repository fullName -> -> ->. reflexivity.
      * destruct (Number pr) as [number|]; cbn beta iota; [|reflexivity].
        destruct (ERepository evt) as [repository|]; cbn beta iota;
          [|reflexivity].
        destruct (FullName repository) as [fullName|] eqn:HF; cbn beta iota;
          [|reflexivity].
        intros [N|[N|(r & N & F)]]; [discriminate N|discriminate N|].
        injection N as <-. congruence.
    + intros pr -> C. rewrite C. cbn. unfold bind, deref, ret, log. split.
      * intros F. destruct (closePR client username pr w) as [out w1].
        simpl in F. now subst out.
      * intros e number repository fullName F -> -> ->.
        destruct (closePR client username pr w) as [out w1].
        simpl in F. now subst out.
Qed.

Lemma buildHandler_dispatch_witness :
  fst (buildHandler Fixture.decode Fixture.quiet "bot" {| Body := inl "{" |}
         Fixture.start) = Exit 1
  /\ issued Fixture.start
       (snd (buildHandler Fixture.decode Fixture.quiet "bot"
               {| Body := inl "closed" |} Fixture.start))
     = [EvDeleteRef "bot" "tool" "heads/feature-x";
        EvLog InfoLevel (LogBranchGone "feature-x" "bot" "tool")]
  /\ issued Fixture.start
       (snd (buildHandler Fixture.decode Fixture.quiet "bot"
               {| Body := inl "push" |} Fixture.start))
     = [EvLog InfoLevel (LogSkipNonPR Fixture.evtPush)]
  /\ buildHandler Fixture.decode Fixture.quiet "bot"
       {| Body := inl "opened" |} Fixture.start
     = (Panic, Fixture.start).
Proof.
  split; [|split; [|split]].
  - destruct (buildHandler_dispatch Fixture.decode Fixture.quiet "bot"
                {| Body := inl "{" |} Fixture.start) as (_ & D & _).
    now rewrite (D "{" "unexpected end of JSON input" eq_refl eq_refl).
  - destruct (buildHandler_dispatch Fixture.decode Fixture.quiet "bot"
                {| Body := inl "closed" |} Fixture.start) as (_ & _ & E).
    destruct (E "closed" Fixture.evtClosed eq_refl eq_refl) as (_ & _ & C).
    destruct (C Fixture.pr42 eq_refl eq_refl) as [P _].
    now rewrite (P eq_refl).
  - destruct (buildHandler_dispatch Fixture.decode Fixture.quiet "bot"
                {| Body := inl "push" |} Fixture.start) as (_ & _ & E).
    destruct (E "push" Fixture.evtPush eq_refl eq_refl) as (S & _).
    now rewrite (S eq_refl).
  - destruct (buildHandler_dispatch Fixture.decode Fixture.quiet "bot"
                {| Body := inl "opened" |} Fixture.start) as (_ & _ & E).
    destruct (E "opened" Fixture.evtOpened eq_refl eq_refl) as (_ & O & _).
    assert (N : Action Fixture.evtOpened <> "closed") by discriminate.
    destruct (O Fixture.prNoNumber eq_refl N) as (_ & _ & P).
    exact (P (or_introl eq_refl)).
Defined.

(** * Further properties *)

(** ** The reference [closePR] sends *)

Lemma Contains_byte (c b : ascii) (s : string) :
  strings.Contains (String c s) (String b EmptyString)
  = Ascii.eqb c b || strings.Contains s (String b EmptyString).
Proof.
  simpl. destruct (ascii_dec b c) as [->|Hne].
  - rewrite Ascii.eqb_refl. now destruct s.
  - destruct (Ascii.eqb_spec c b) as [->|_]; [congruence|reflexivity].
Qed.

Lemma Contains_byte_app (a s : string) (b : ascii) :
  strings.Contains (a ++ s) (String b EmptyString)
  = strings.Contains a (String b EmptyString)
    || strings.Contains s (String b EmptyString).
Proof.
  induction a as [|c a IH].
  - simpl. now destruct s.
  - change (String c a ++ s) with (String c (a ++ s)).
    rewrite !Contains_byte, IH. now rewrite orb_assoc.
Qed.

(** No [old] byte is left when [new] holds none. *)
Lemma Replace_clears (s : string) (old : ascii) (new : string) :
  strings.Contains new (String old EmptyString) = false ->
  strings.Contains (strings.Replace s old new) (String old EmptyString)
  = false.
Proof.
  intros Hnew. induction s as [|c s IH]; [reflexivity|].
  simpl strings.Replace.
  destruct (Ascii.eqb_spec c old) as [->|Hne].
  - now rewrite Contains_byte_app, Hnew, IH.
  - rewrite Contains_byte, IH.
    destruct (Ascii.eqb_spec c old); [congruence|reflexivity].
Qed.

Lemma Replace_twice (s : string) (old : ascii) (new : string) :
  strings.Contains new (String old EmptyString) = false ->
  strings.Replace (strings.Replace s old new) old new
  = strings.Replace s old new.
Proof. intros Hnew. apply Replace_absent. now apply Replace_clears. Qed.

(** The escaping of line 174 gives back only what it was given when the
    result holds no "%". *)
Lemma Replace_hash_plain (s t : string) :
  strings.Contains t "%" = false ->
  strings.Replace s "#" "%23" = t -> s = t.
Proof.
  revert t. induction s as [|c s IH]; intros t Ht E; [exact E|].
  simpl in E. destruct (Ascii.eqb_spec c "#"%char) as [->|Hne].
  - subst t. discriminate Ht.
  - destruct t as [|d t]; [discriminate|].
    injection E as -> E.
    rewrite Contains_byte in Ht. apply orb_false_elim in Ht as [_ Ht].
    now rewrite (IH t Ht E).
Qed.

Lemma Replace_heads (branch : string) :
  strings.Replace ("heads/" ++ branch) "#" "%23"
  = "heads/" ++ strings.Replace branch "#" "%23".
Proof. reflexivity. Qed.

Lemma deletion_safe username name branch :
  branch <> "master" ->
  safeDeletion username
    (username, name, strings.Replace ("heads/" ++ branch) "#" "%23").
Proof.
  intros Hb. unfold safeDeletion. rewrite Replace_heads.
  split; [reflexivity|]. split; [|split].
  - intros E. apply Hb. injection E as E.
    now apply Replace_hash_plain.
  - simpl. now destruct (strings.Replace branch "#" "%23").
  - rewrite <- Replace_heads. now apply Replace_clears.
Qed.

(** Whatever [closePR] adds to the history: at most one deletion, a safe one,
    no listing and no retrieval; the watermark and the clock stay. *)
Lemma closePR_frame client username pr w :
  exists evs,
    snd (closePR client username pr w) = emit evs w
    /\ Forall (safeDeletion username) (deletions evs)
    /\ (List.length (deletions evs) <= 1)%nat
    /\ retrievals evs = [] /\ listings evs = [].
Proof.
  destruct (closePR_cases client username pr w)
    as [E|(h & r & o & b & n & HS & HM & HH & HR & HRepo & HO & HL & HN & Hb)].
  - exists []. rewrite emit_nil. simpl. repeat split; auto.
  - rewrite (closePR_eligible client username pr h r o b n w
               HS HM HH HR HRepo HO HL HN Hb).
    pose proof (deletion_safe username n b Hb) as Safe.
    unfold deletion.
    destruct (Git_DeleteRef client (trace w) username n _) as [msg|];
      [destruct (notFound msg)|]; eexists;
      (split; [reflexivity|]); simpl;
      (split; [now constructor|]); (split; [lia|]); split; reflexivity.
Qed.

(** X1.  Whatever the pull request, the client and the world, [closePR]
    issues at most one branch deletion, and the deletion it issues is in the
    bot's own account, on a reference that starts with "heads/", is not
    "heads/master" and holds no "#". *)
Theorem closePR_deletion_is_safe client username pr w :
  let issued_ := issued w (snd (closePR client username pr w)) in
  (List.length (deletions issued_) <= 1)%nat
  /\ Forall (safeDeletion username) (deletions issued_).
Proof.
  destruct (closePR_frame client username pr w) as (evs & E & S & L & _).
  cbn zeta. rewrite E, issued_emit. now split.
Qed.

(** X2.  The escaping of the reference is not one-to-one: for the same
    repository, a merged pull request from branch [branch] and one from the
    branch named like [branch] with "%23" in place of every "#" make
    [closePR] issue the same deletion. *)
Theorem closePR_escaped_names_collide client username name branch n m w :
  branch <> "master" ->
  deletions
    (issued w (snd (closePR client username
                      (Fixture.merged n username name branch) w)))
  = deletions
      (issued w (snd (closePR client username
                        (Fixture.merged m username name
                           (strings.Replace branch "#" "%23")) w))).
Proof.
  intros Hb.
  assert (Hb' : strings.Replace branch "#" "%23" <> "master").
  { intros E. apply Hb. now apply Replace_hash_plain. }
  rewrite (closePR_eligible client username
             (Fixture.merged n username name branch) _ _ _ branch name w
             eq_refl eq_refl eq_refl eq_refl eq_refl eq_refl eq_refl eq_refl
             Hb).
  rewrite (closePR_eligible client username
             (Fixture.merged m username name
                (strings.Replace branch "#" "%23")) _ _ _ _ name w
             eq_refl eq_refl eq_refl eq_refl eq_refl eq_refl eq_refl eq_refl
             Hb').
  destruct (deletion_issued client username name branch w) as (e1 & E1 & D1).
  destruct (deletion_issued client username name
              (strings.Replace branch "#" "%23") w) as (e2 & E2 & D2).
  rewrite E1, E2, !issued_emit, D1, D2, !Replace_heads.
  now rewrite Replace_twice.
Qed.

Lemma closePR_escaped_names_collide_witness :
  deletions
    (issued Fixture.start
       (snd (closePR Fixture.quiet "bot"
               (Fixture.merged 7 "bot" "tool" "fix#12") Fixture.start)))
  = deletions
      (issued Fixture.start
         (snd (closePR Fixture.quiet "bot"
                 (Fixture.merged 8 "bot" "tool" "fix%2312") Fixture.start))).
Proof.
  assert (N : "fix#12" <> "master") by discriminate.
  exact (closePR_escaped_names_collide Fixture.quiet "bot" "tool" "fix#12"
           7 8 Fixture.start N).
Defined.

(** ** What the poller adds to the history *)

Lemma deletions_app (a b : list Event) :
  deletions (a ++ b) = (deletions a ++ deletions b)%list.
Proof.
  induction a as [|e a IH]; simpl; auto.
  destruct e; simpl; auto. now rewrite IH.
Qed.

Lemma baseline_settled (w : World) (evs : list Event) :
  baseline (emit evs (baseline w)) = emit evs (baseline w).
Proof. now rewrite baseline_emit, baseline_twice. Qed.

Lemma lastChecked_baseline (w : World) :
  lastChecked (baseline w)
  = if IsZero (lastChecked w) then clock w else lastChecked w.
Proof. unfold baseline. now destruct (IsZero (lastChecked w)). Qed.

Lemma clock_baseline (w : World) : clock (baseline w) = clock w.
Proof. unfold baseline. now destruct (IsZero (lastChecked w)). Qed.

Lemma pollOptions_later (w : World) (evs : list Event) perPage opt :
  pollOptions (emit evs (baseline w)) perPage opt -> pollOptions w perPage opt.
Proof.
  unfold pollOptions. cbn [emit lastChecked clock].
  rewrite lastChecked_baseline, clock_baseline.
  intros (A & P & S). repeat split; auto.
  unfold IsZero in S. destruct (Z.eqb_spec (lastChecked w) 0) as [Z|NZ].
  - right. split; [exact Z|]. now destruct S as [S|[_ S]].
  - left. destruct S as [S|[S _]]; [exact S|contradiction].
Qed.

Lemma handleNotification_frame client n username w :
  exists evs,
    snd (handleNotification client n username w) = emit evs w
    /\ Forall (safeDeletion username) (deletions evs)
    /\ listings evs = []
    /\ (List.length (retrievals evs) <= 1)%nat
    /\ (List.length (deletions evs) <= 1)%nat.
Proof.
  assert (Z0 : exists evs,
             w = emit evs w
             /\ Forall (safeDeletion username) (deletions evs)
             /\ listings evs = []
             /\ (List.length (retrievals evs) <= 1)%nat
             /\ (List.length (deletions evs) <= 1)%nat).
  { exists []. rewrite emit_nil. simpl. repeat split; auto. }
  unfold handleNotification, lastPart, Get.
  unfold bind, deref, ret, panic.
  destruct (Subject n) as [subject|]; cbn beta iota; [|exact Z0].
  destruct (SubjectType subject) as [type|]; cbn beta iota; [|exact Z0].
  destruct (type =? "PullRequest")%string; cbn beta iota; [|exact Z0].
  destruct (URL subject) as [url|]; cbn beta iota; [|exact Z0].
  destruct (nth_error _ _) as [last|]; cbn beta iota; [|exact Z0].
  destruct (strconv.Atoi last) as [id|err]; cbn beta iota; [|exact Z0].
  destruct (NRepository n) as [repository|]; cbn beta iota; [|exact Z0].
  destruct (Owner repository) as [o|]; cbn beta iota; [|exact Z0].
  destruct (Login o) as [l|]; cbn beta iota; [|exact Z0].
  destruct (Name repository) as [name|]; cbn beta iota; [|exact Z0].
  destruct (PullRequests_Get client (trace w) l name id) as [pr|msg];
    cbn beta iota.
  - destruct (closePR_frame client username pr
                (emit [EvPullRequestsGet l name id] w))
      as (evs & E & S & D & R & L).
    rewrite E, emit_emit. eexists. split; [reflexivity|].
    simpl. rewrite R. repeat split; auto.
  - eexists. split; [reflexivity|]. simpl. repeat split; auto.
Qed.

Lemma handleAll_frame client ns username :
  forall w,
  exists evs,
    snd (handleAll client ns username w) = emit evs w
    /\ Forall (safeDeletion username) (deletions evs)
    /\ listings evs = [].
Proof.
  induction ns as [|n ns IH]; intros w; simpl.
  - exists []. unfold ret. rewrite emit_nil. simpl. auto.
  - unfold bind.
    destruct (handleNotification_frame client n username w)
      as (evs & E & S & L & _ & _).
    destruct (handleNotification client n username w) as [[[e|]| | |] w1];
      simpl in E; subst w1; simpl; eauto.
    destruct (IH (emit evs w)) as (evs' & E' & S' & L').
    rewrite E', emit_emit. eexists. split; [reflexivity|].
    rewrite deletions_app, listings_app, L, L'. split; [|reflexivity].
    apply Forall_app. now split.
Qed.

Lemma getNotifications_frame client username perPage fuel :
  forall page w,
  exists evs,
    snd (getNotifications fuel client username page perPage w)
    = emit evs (match fuel with O => w | S _ => baseline w end)
    /\ Forall (safeDeletion username) (deletions evs)
    /\ Forall (pollOptions w perPage) (listings evs).
Proof.
  induction fuel as [|fuel IH]; intros page w.
  - exists []. simpl. rewrite emit_nil. auto.
  - rewrite getNotifications_step; cbn zeta.
    assert (P : pollOptions w perPage (options (lastChecked w) page perPage))
      by (unfold pollOptions; simpl; auto).
    destruct (Activity_ListNotifications client _ _) as [[ns r]|msg].
    2:{ eexists. split; [reflexivity|]. simpl. auto. }
    destruct (handleAll_frame client ns username
                (emit [EvListNotifications
                         (options (lastChecked w) page perPage)] (baseline w)))
      as (evs & E & S & L).
    assert (Done : exists evs',
               emit evs
                 (emit [EvListNotifications
                          (options (lastChecked w) page perPage)]
                    (baseline w)) = emit evs' (baseline w)
               /\ Forall (safeDeletion username) (deletions evs')
               /\ Forall (pollOptions w perPage) (listings evs')).
    { rewrite emit_emit. eexists. split; [reflexivity|].
      simpl. rewrite L. auto. }
    destruct (handleAll client ns username _) as [[[e|]| | |] w1];
      cbn [snd] in E; subst w1; try exact Done.
    destruct ((page =? LastPage r) || (NextPage r =? 0)); [exact Done|].
    rewrite emit_emit.
    destruct (IH (NextPage r)
                (emit ([EvListNotifications
                          (options (lastChecked w) page perPage)] ++ evs)
                   (baseline w))) as (evs2 & E2 & S2 & L2).
    rewrite E2.
    assert (B : match fuel with
                | O => emit ([EvListNotifications
                                (options (lastChecked w) page perPage)]
                             ++ evs) (baseline w)
                | S _ => baseline
                           (emit ([EvListNotifications
                                     (options (lastChecked w) page perPage)]
                                  ++ evs) (baseline w))
                end
                = emit ([EvListNotifications
                           (options (lastChecked w) page perPage)] ++ evs)
                    (baseline w))
      by (destruct fuel; [reflexivity|apply baseline_settled]).
    rewrite B, emit_emit. eexists. split; [reflexivity|].
    rewrite !deletions_app, !listings_app. simpl. rewrite L. simpl.
    split.
    + apply Forall_app. now split.
    + constructor; [exact P|].
      eapply Forall_impl; [|exact L2].
      intros opt. apply pollOptions_later.
Qed.

Lemma notifier_frame client username fuel ticks :
  forall w,
  exists evs,
    snd (notifier ticks fuel client username w)
    = emit evs (match ticks, fuel with
                | S _, S _ => baseline w
                | _, _ => w
                end)
    /\ Forall (safeDeletion username) (deletions evs)
    /\ Forall (pollOptions w 20) (listings evs).
Proof.
  induction ticks as [|ticks IH]; intros w.
  - exists []. simpl. unfold ret. rewrite emit_nil. auto.
  - simpl notifier. unfold bind at 1. unfold tick, bind at 1.
    destruct (getNotifications_frame client username 20 fuel 1 w)
      as (evs & E & Sd & L).
    destruct fuel as [|fuel].
    { simpl. exists []. rewrite emit_nil. auto. }
    assert (Done : exists evs0,
               emit evs (baseline w) = emit evs0 (baseline w)
               /\ Forall (safeDeletion username) (deletions evs0)
               /\ Forall (pollOptions w 20) (listings evs0))
      by (exists evs; auto).
    assert (Next : forall more,
               deletions more = [] -> listings more = [] ->
               exists evs0,
                 snd (notifier ticks (S fuel) client username
                        (emit more (emit evs (baseline w))))
                 = emit evs0 (baseline w)
                 /\ Forall (safeDeletion username) (deletions evs0)
                 /\ Forall (pollOptions w 20) (listings evs0)).
    { intros more Dm Lm. rewrite emit_emit.
      destruct (IH (emit (evs ++ more) (baseline w)))
        as (evs2 & E2 & S2 & L2).
      rewrite E2.
      assert (B : match ticks with
                  | O => emit (evs ++ more) (baseline w)
                  | S _ => baseline (emit (evs ++ more) (baseline w))
                  end = emit (evs ++ more) (baseline w))
        by (destruct ticks; [reflexivity|apply baseline_settled]).
      rewrite B, emit_emit. eexists. split; [reflexivity|].
      rewrite !deletions_app, !listings_app, Dm, Lm, !app_nil_r.
      split; apply Forall_app; split; auto.
      eapply Forall_impl; [|exact L2].
      intros opt. apply pollOptions_later. }
    destruct (getNotifications (S fuel) client username 1 20 w)
      as [[[e|]| | |] w1]; cbn [snd] in E; subst w1;
      unfold log, ret; cbn beta iota; try exact Done.
    + now apply Next.
    + rewrite <- (emit_nil (emit evs (baseline w))). now apply Next.
Qed.

(** ** The watermark and the calls of a polling run *)

(** X3.  [notifier] never moves a watermark that is set: over any number of
    ticks and against any client a non-zero [lastChecked] stays what it was.
    A zero one becomes the current time on the first tick and stays that. *)
Theorem notifier_pins_watermark ticks fuel client username w :
  let w' := snd (notifier ticks fuel client username w) in
  clock w' = clock w
  /\ (lastChecked w <> 0 -> lastChecked w' = lastChecked w)
  /\ (lastChecked w = 0 -> (0 < ticks)%nat -> (0 < fuel)%nat ->
      lastChecked w' = clock w).
Proof.
  cbn zeta.
  destruct (notifier_frame client username fuel ticks w) as (evs & E & _).
  rewrite E. cbn [emit clock lastChecked].
  split; [|split].
  - destruct ticks, fuel; auto using clock_baseline.
  - intros NZ. apply Z.eqb_neq in NZ.
    destruct ticks, fuel; auto.
    rewrite lastChecked_baseline. unfold IsZero. now rewrite NZ.
  - intros Z T F. destruct ticks, fuel; try lia.
    rewrite lastChecked_baseline, Z. reflexivity.
Qed.

Lemma notifier_pins_watermark_witness :
  lastChecked (snd (notifier 3 5 Fixture.paged "bot" Sample.later)) = 500
  /\ lastChecked (snd (notifier 3 5 Fixture.paged "bot" Fixture.start)) = 1000.
Proof.
  split.
  - apply (notifier_pins_watermark 3 5 Fixture.paged "bot" Sample.later).
    discriminate.
  - apply (notifier_pins_watermark 3 5 Fixture.paged "bot" Fixture.start);
      [reflexivity|lia|lia].
Defined.

(** X4.  Every listing [notifier] sends, on any tick and any page, asks for
    read and unread notifications, 20 to a page, since the watermark the run
    started with, or since the time of the start when that watermark was
    zero (and then also, for the first listing, since the zero time). *)
Theorem notifier_listing_options ticks fuel client username w :
  Forall (pollOptions w 20)
    (listings (issued w (snd (notifier ticks fuel client username w)))).
Proof.
  destruct (notifier_frame client username fuel ticks w) as (evs & E & _ & L).
  rewrite E.
  destruct ticks, fuel; now rewrite ?issued_emit, ?issued_emit_baseline.
Qed.

(** X5.  Every branch deletion a polling run issues, whatever the client
    answers and however many ticks and pages it takes, is in the bot's own
    account, on a reference under "heads/" other than "heads/master". *)
Theorem notifier_deletions_are_safe ticks fuel client username w :
  Forall (safeDeletion username)
    (deletions (issued w (snd (notifier ticks fuel client username w)))).
Proof.
  destruct (notifier_frame client username fuel ticks w) as (evs & E & S & _).
  rewrite E.
  destruct ticks, fuel; now rewrite ?issued_emit, ?issued_emit_baseline.
Qed.

(** X6.  The webhook handler, whatever the request and the decoder, lists
    no notifications, retrieves no pull request, leaves the watermark alone
    and issues at most one branch deletion, a safe one. *)
Theorem buildHandler_calls unmarshal client username req w :
  let w' := snd (buildHandler unmarshal client username req w) in
  lastChecked w' = lastChecked w
  /\ listings (issued w w') = []
  /\ retrievals (issued w w') = []
  /\ (List.length (deletions (issued w w')) <= 1)%nat
  /\ Forall (safeDeletion username) (deletions (issued w w')).
Proof.
  cbn zeta.
  assert (Frame : forall evs,
             Forall (safeDeletion username) (deletions evs) ->
             (List.length (deletions evs) <= 1)%nat ->
             retrievals evs = [] -> listings evs = [] ->
             lastChecked (emit evs w) = lastChecked w
             /\ listings (issued w (emit evs w)) = []
             /\ retrievals (issued w (emit evs w)) = []
             /\ (List.length (deletions (issued w (emit evs w))) <= 1)%nat
             /\ Forall (safeDeletion username)
                  (deletions (issued w (emit evs w)))).
  { intros evs S D R L. rewrite issued_emit. repeat split; auto. }
  assert (Same : lastChecked w = lastChecked w
                 /\ listings (issued w w) = []
                 /\ retrievals (issued w w) = []
                 /\ (List.length (deletions (issued w w)) <= 1)%nat
                 /\ Forall (safeDeletion username) (deletions (issued w w))).
  { rewrite issued_same. simpl. repeat split; auto. }
  assert (One : forall lvl line,
             lastChecked (emit [EvLog lvl line] w) = lastChecked w
             /\ listings (issued w (emit [EvLog lvl line] w)) = []
             /\ retrievals (issued w (emit [EvLog lvl line] w)) = []
             /\ (List.length
                   (deletions (issued w (emit [EvLog lvl line] w))) <= 1)%nat
             /\ Forall (safeDeletion username)
                  (deletions (issued w (emit [EvLog lvl line] w)))).
  { intros lvl line. apply Frame; simpl; auto. }
  unfold buildHandler, fatal.
  destruct (Body req) as [body|msg]; [|apply One].
  destruct (unmarshal body) as [evt|msg]; [|apply One].
  destruct (EPullRequest evt) as [pr|]; [|apply One].
  unfold bind, deref, ret, panic, log.
  destruct (Action evt =? "closed")%string.
  - destruct (closePR_frame client username pr w) as (evs & E & S & D & R & L).
    destruct (closePR client username pr w) as [[[e|]| | |] w1];
      cbn [snd] in E; subst w1; cbn beta iota; try (now apply Frame).
    destruct (Number pr) as [number|]; cbn beta iota; [|now apply Frame].
    destruct (ERepository evt) as [repository|]; cbn beta iota;
      [|now apply Frame].
    destruct (FullName repository) as [fullName|]; cbn beta iota;
      [|now apply Frame].
    cbn [snd]. rewrite emit_emit. apply Frame.
    + rewrite deletions_app. simpl. now rewrite app_nil_r.
    + rewrite deletions_app. simpl. now rewrite app_nil_r.
    + rewrite retrievals_app. simpl. now rewrite R.
    + rewrite listings_app. simpl. now rewrite L.
  - destruct (Number pr) as [number|]; cbn beta iota; [|exact Same].
    destruct (ERepository evt) as [repository|]; cbn beta iota; [|exact Same].
    destruct (FullName repository) as [fullName|]; cbn beta iota;
      [|exact Same].
    apply One.
Qed.

(** ** Pagination at its edges *)

(** X7.  The recursion of [getNotifications] follows the next-page field
    with no bound of its own: against a client whose every page is handled
    without error, names a next page and does not announce itself as the
    last, the call does not return, and lists one more page for every
    further step it is given. *)
Theorem getNotifications_follows_forever client username perPage :
  (forall past opt,
      exists notifications resp,
        Activity_ListNotifications client past opt = inl (notifications, resp)
        /\ (forall w, fst (handleAll client notifications username w)
                      = Ret None)
        /\ NextPage resp <> 0
        /\ LastPage resp <> Page (Options opt)) ->
  forall fuel page w,
    fst (getNotifications fuel client username page perPage w) = OutOfFuel
    /\ List.length
         (listings
            (issued w
               (snd (getNotifications fuel client username page perPage w))))
       = fuel.
Proof.
  intros Serve.
  induction fuel as [|fuel IH]; intros page w.
  - simpl. now rewrite issued_same.
  - rewrite getNotifications_step; cbn zeta.
    destruct (Serve (trace w) (options (lastChecked w) page perPage))
      as (ns & r & EList & Ok & HN & HL).
    rewrite EList. simpl in HL.
    destruct (handleAll_frame client ns username
                (emit [EvListNotifications
                         (options (lastChecked w) page perPage)] (baseline w)))
      as (evs & E & _ & L).
    specialize (Ok (emit [EvListNotifications
                            (options (lastChecked w) page perPage)]
                      (baseline w))).
    destruct (handleAll client ns username _) as [out w1].
    cbn [fst snd] in Ok, E. subst out w1.
    apply Z.eqb_neq in HN. rewrite HN.
    assert (HL' : (page =? LastPage r) = false)
      by (apply Z.eqb_neq; congruence).
    rewrite HL'. cbn [orb].
    rewrite emit_emit.
    destruct (IH (NextPage r)
                (emit ([EvListNotifications
                          (options (lastChecked w) page perPage)] ++ evs)
                   (baseline w))) as [F C].
    split; [exact F|].
    destruct (getNotifications_frame client username perPage fuel (NextPage r)
                (emit ([EvListNotifications
                          (options (lastChecked w) page perPage)] ++ evs)
                   (baseline w))) as (evs2 & E2 & _).
    assert (B : match fuel with
                | O => emit ([EvListNotifications
                                (options (lastChecked w) page perPage)]
                             ++ evs) (baseline w)
                | S _ => baseline
                           (emit ([EvListNotifications
                                     (options (lastChecked w) page perPage)]
                                  ++ evs) (baseline w))
                end
                = emit ([EvListNotifications
                           (options (lastChecked w) page perPage)] ++ evs)
                    (baseline w))
      by (destruct fuel; [reflexivity|apply baseline_settled]).
    rewrite B in E2. rewrite E2 in C |- *.
    rewrite issued_emit in C.
    rewrite emit_emit, issued_emit_baseline, !listings_app.
    simpl. rewrite L. simpl. now rewrite C.
Qed.

Lemma getNotifications_follows_forever_witness :
  fst (getNotifications 50 Sample.endless "bot" 1 20 Fixture.start)
  = OutOfFuel.
Proof.
  apply (getNotifications_follows_forever Sample.endless "bot" 20).
  intros past opt.
  exists [], {| NextPage := 1; LastPage := Page (Options opt) + 1 |}.
  repeat split; [discriminate|simpl; lia].
Defined.

(** X8.  A page that announces itself as the last one ends the run even
    when it names a next page: its notifications are handled, the call
    returns without error, and the page it names is not listed. *)
Theorem getNotifications_stops_at_last_page client username fuel page perPage
    w notifications resp w1 :
  let opt := options (lastChecked w) page perPage in
  Activity_ListNotifications client (trace w) opt = inl (notifications, resp) ->
  handleAll client notifications username
    (emit [EvListNotifications opt] (baseline w)) = (Ret None, w1) ->
  LastPage resp = page ->
  getNotifications (S fuel) client username page perPage w = (Ret None, w1)
  /\ listings (issued w w1) = [opt].
Proof.
  intros opt EList EAll ELast.
  rewrite getNotifications_step; cbn zeta. fold opt.
  rewrite EList, EAll, ELast, Z.eqb_refl. cbn [orb].
  split; [reflexivity|].
  destruct (handleAll_frame client notifications username
              (emit [EvListNotifications opt] (baseline w)))
    as (evs & E & _ & L).
  rewrite EAll in E. cbn [snd] in E. subst w1.
  rewrite emit_emit, issued_emit_baseline, listings_app, L. reflexivity.
Qed.

Lemma getNotifications_stops_at_last_page_witness :
  fst (getNotifications 5 Sample.lastButNext "bot" 1 20 Fixture.start)
  = Ret None
  /\ listings
       (issued Fixture.start
          (snd (getNotifications 5 Sample.lastButNext "bot" 1 20
                  Fixture.start)))
     = [options 0 1 20].
Proof.
  destruct (getNotifications_stops_at_last_page Sample.lastButNext "bot" 4
              1 20 Fixture.start [Fixture.note42]
              {| NextPage := 2; LastPage := 1 |}
              (snd (handleAll Sample.lastButNext [Fixture.note42] "bot"
                      (emit [EvListNotifications (options 0 1 20)]
                         (baseline Fixture.start))))
              eq_refl eq_refl eq_refl) as [R L].
  rewrite R. split; [reflexivity|exact L].
Defined.

(** X9.  When the first listing fails while the watermark is still zero,
    the error is logged as a warning and the watermark is set all the same:
    the next tick lists since the time of the failed attempt, so the listing
    without a "since" is not repeated. *)
Theorem notifier_retries_since_failure client username fuel ticks w msg :
  lastChecked w = 0 ->
  Activity_ListNotifications client (trace w) (options 0 1 20) = inr msg ->
  exists rest,
    issued w (snd (notifier (S (S ticks)) (S fuel) client username w))
    = EvListNotifications (options 0 1 20)
      :: EvLog WarnLevel (LogError (ClientError msg))
      :: EvListNotifications (options (clock w) 1 20)
      :: rest.
Proof.
  intros Z EList.
  change (notifier (S (S ticks)) (S fuel) client username w)
    with ((tick (S fuel) client username ;;
           notifier (S ticks) (S fuel) client username) w).
  unfold bind at 1. unfold tick at 1. unfold bind at 1.
  rewrite getNotifications_step; cbn zeta.
  rewrite Z, EList. unfold log. cbn beta iota. rewrite emit_emit. cbn [app].
  set (w1 := emit [EvListNotifications (options 0 1 20);
                   EvLog WarnLevel (LogError (ClientError msg))]
               (baseline w)).
  change (notifier (S ticks) (S fuel) client username w1)
    with ((tick (S fuel) client username ;;
           notifier ticks (S fuel) client username) w1).
  assert (LC : lastChecked w1 = clock w).
  { unfold w1. cbn [emit lastChecked]. rewrite lastChecked_baseline, Z.
    reflexivity. }
  assert (B1 : baseline w1 = w1) by apply baseline_settled.
  destruct (getNotifications_emits client username 20 fuel 1 w1)
    as (more & E).
  rewrite LC, B1 in E.
  unfold bind at 1. unfold tick at 1. unfold bind at 1.
  destruct (getNotifications (S fuel) client username 1 20 w1)
    as [[[e|]| | |] w2]; cbn [snd] in E; subst w2;
    unfold log, ret; cbn beta iota.
  - destruct (notifier_frame client username (S fuel) ticks
                (emit [EvLog WarnLevel (LogError e)]
                   (emit (EvListNotifications (options (clock w) 1 20)
                            :: more) w1))) as (evs & E' & _).
    rewrite E'.
    assert (B : match ticks with
                | O => emit [EvLog WarnLevel (LogError e)]
                         (emit (EvListNotifications
                                  (options (clock w) 1 20) :: more) w1)
                | S _ => baseline
                           (emit [EvLog WarnLevel (LogError e)]
                              (emit (EvListNotifications
                                       (options (clock w) 1 20) :: more) w1))
                end
                = emit [EvLog WarnLevel (LogError e)]
                    (emit (EvListNotifications
                             (options (clock w) 1 20) :: more) w1)).
    { destruct ticks; [reflexivity|].
      unfold w1. rewrite !emit_emit. apply baseline_settled. }
    rewrite B. unfold w1. rewrite !emit_emit, issued_emit_baseline.
    cbn [app]. eexists. reflexivity.
  - destruct (notifier_frame client username (S fuel) ticks
                (emit (EvListNotifications (options (clock w) 1 20) :: more)
                   w1)) as (evs & E' & _).
    rewrite E'.
    assert (B : match ticks with
                | O => emit (EvListNotifications
                               (options (clock w) 1 20) :: more) w1
                | S _ => baseline
                           (emit (EvListNotifications
                                    (options (clock w) 1 20) :: more) w1)
                end
                = emit (EvListNotifications
                          (options (clock w) 1 20) :: more) w1).
    { destruct ticks; [reflexivity|].
      unfold w1. rewrite !emit_emit. apply baseline_settled. }
    rewrite B. unfold w1. rewrite !emit_emit, issued_emit_baseline.
    cbn [app]. eexists. reflexivity.
  - cbn [snd]. unfold w1. rewrite !emit_emit, issued_emit_baseline.
    cbn [app]. eexists. reflexivity.
  - cbn [snd]. unfold w1. rewrite !emit_emit, issued_emit_baseline.
    cbn [app]. eexists. reflexivity.
  - cbn [snd]. unfold w1. rewrite !emit_emit, issued_emit_baseline.
    cbn [app]. eexists. reflexivity.
Qed.

Lemma notifier_retries_since_failure_witness :
  exists rest,
    issued Fixture.start (snd (notifier 2 1 Sample.down "bot" Fixture.start))
    = EvListNotifications (options 0 1 20)
      :: EvLog WarnLevel (LogError (ClientError "GET: 502 Bad Gateway []"))
      :: EvListNotifications (options 1000 1 20)
      :: rest.
Proof.
  exact (notifier_retries_since_failure Sample.down "bot" 0 0 Fixture.start
           "GET: 502 Bad Gateway []" eq_refl eq_refl).
Defined.

(** ** Which notifications are handled *)

Lemma handleNotification_other client n username w subject type :
  Subject n = Some subject -> SubjectType subject = Some type ->
  (type =? "PullRequest")%string = false ->
  handleNotification client n username w = (Ret None, w).
Proof.
  intros HS HT HN. unfold handleNotification, bind, deref, ret.
  rewrite HS; cbn beta iota. rewrite HT; cbn beta iota. now rewrite HN.
Qed.

(** X14.  Handling one notification, whatever it is and whatever the client
    answers, lists nothing, retrieves at most one pull request and issues at
    most one branch deletion, a safe one; the watermark stays. *)
Theorem handleNotification_calls client notification username w :
  let w' := snd (handleNotification client notification username w) in
  lastChecked w' = lastChecked w
  /\ listings (issued w w') = []
  /\ (List.length (retrievals (issued w w')) <= 1)%nat
  /\ (List.length (deletions (issued w w')) <= 1)%nat
  /\ Forall (safeDeletion username) (deletions (issued w w')).
Proof.
  cbn zeta.
  destruct (handleNotification_frame client notification username w)
    as (evs & E & S & L & R & D).
  rewrite E, issued_emit. repeat split; auto.
Qed.

(** X10.  Notifications that are no pull-request notifications are
    transparent: when every notification of a page has its subject and type
    set, handling the page is handling its pull-request notifications
    alone, in their order. *)
Theorem handleAll_skips_other_subjects client notifications username :
  (forall n, In n notifications ->
             exists subject type,
               Subject n = Some subject /\ SubjectType subject = Some type) ->
  forall w,
    handleAll client notifications username w
    = handleAll client (filter isPullRequest notifications) username w.
Proof.
  induction notifications as [|n ns IH]; intros Typed w; [reflexivity|].
  destruct (Typed n (or_introl eq_refl)) as (subject & type & HS & HT).
  assert (Typed' : forall m, In m ns ->
             exists subject type,
               Subject m = Some subject /\ SubjectType subject = Some type)
    by (intros m Hm; apply Typed; now right).
  simpl filter. unfold isPullRequest at 1. rewrite HS, HT.
  destruct (type =? "PullRequest")%string eqn:HP.
  - simpl handleAll. unfold bind.
    destruct (handleNotification client n username w) as [[[e|]| | |] w1];
      try reflexivity.
    now apply IH.
  - simpl handleAll. unfold bind at 1.
    rewrite (handleNotification_other client n username w subject type
               HS HT HP).
    now apply IH.
Qed.

Lemma handleAll_skips_other_subjects_witness :
  handleAll Fixture.paged [Sample.noteIssue; Fixture.note42; Sample.noteIssue]
    "bot" Fixture.start
  = handleAll Fixture.paged [Fixture.note42] "bot" Fixture.start.
Proof.
  apply (handleAll_skips_other_subjects Fixture.paged
           [Sample.noteIssue; Fixture.note42; Sample.noteIssue] "bot").
  intros n [<-|[<-|[<-|[]]]]; do 2 eexists; split; reflexivity.
Defined.

(** ** The number in the subject URL *)

Lemma Split_last (s : string) (sep : ascii) :
  exists init last,
    strings.Split s sep = (init ++ [last])%list
    /\ strings.Contains last (String sep EmptyString) = false
    /\ (init = [] -> s = last)
    /\ (init <> [] ->
        exists before, s = before ++ String sep EmptyString ++ last).
Proof.
  induction s as [|c s (init & last & E & NC & One & More)].
  - exists [], EmptyString. repeat split; auto. congruence.
  - simpl strings.Split. destruct (Ascii.eqb_spec c sep) as [->|Hne].
    + exists (EmptyString :: init), last. rewrite E.
      split; [reflexivity|]. split; [exact NC|]. split; [discriminate|].
      intros _. destruct init as [|i init].
      * exists EmptyString. now rewrite (One eq_refl).
      * destruct More as (before & ->); [discriminate|].
        now exists (String sep before).
    + rewrite E. destruct init as [|i init]; simpl.
      * exists [], (String c last). split; [reflexivity|]. split.
        { rewrite Contains_byte, NC.
          destruct (Ascii.eqb_spec c sep); [congruence|reflexivity]. }
        split; [intros _; now rewrite (One eq_refl)|congruence].
      * exists (String c i :: init), last.
        split; [reflexivity|]. split; [exact NC|]. split; [discriminate|].
        intros _. destruct More as (before & ->); [discriminate|].
        now exists (String c before).
Qed.

Lemma nth_error_last {A} (init : list A) (last : A) :
  nth_error (init ++ [last]) (Nat.pred (List.length (init ++ [last])))
  = Some last.
Proof.
  rewrite length_app. simpl. rewrite Nat.add_1_r. simpl.
  rewrite nth_error_app2 by lia. now rewrite Nat.sub_diag.
Qed.

(** X11.  Lines 235-236 never panic: whatever the subject URL, the indexing
    [parts[len(parts)-1]] succeeds, and what it yields holds no "/" and is
    the URL itself or what stands behind the last "/" of the URL. *)
Theorem lastPart_is_last_segment (url : string) (w : World) :
  exists last,
    lastPart (strings.Split url "/") w = (Ret last, w)
    /\ strings.Contains last "/" = false
    /\ (url = last \/ exists before, url = before ++ "/" ++ last).
Proof.
  destruct (Split_last url "/") as (init & last & E & NC & One & More).
  exists last. unfold lastPart. rewrite E, nth_error_last.
  split; [reflexivity|]. split; [exact NC|].
  destruct init as [|i init]; [left; now apply One|right].
  apply More. discriminate.
Qed.

(** ** Start-up *)

(** X12.  The program gets as far as polling or serving exactly when the
    version flag is off, the token is not empty, the lookup of the
    authenticated user succeeds with a login, and the interval parses; it
    then serves on port 8080 when the webhook flag is on and polls with the
    parsed interval otherwise, under that login. *)
Theorem run_reaches_mode f who parseDuration mode :
  snd (Startup.run f who parseDuration) = Ret mode
  <-> Startup.version f = false
      /\ Startup.token f <> ""
      /\ exists user username dur,
           who = inl user
           /\ Login user = Some username
           /\ parseDuration (Startup.interval f) = inl dur
           /\ mode = if Startup.webhook f
                     then Startup.ListenHooks 8080 username
                     else Startup.Notifier dur username.
Proof.
  unfold Startup.run, Startup.init, Startup.main, Startup.usageAndExit.
  destruct (Startup.version f).
  { split; [discriminate|]. now intros [? _]. }
  destruct (String.eqb_spec (Startup.token f) "") as [T|T].
  { split; [discriminate|]. now intros (_ & ? & _). }
  destruct who as [user|msg].
  2:{ split; [discriminate|]. intros (_ & _ & ? & ? & ? & ? & _).
      discriminate. }
  destruct (Login user) as [username|] eqn:HL.
  2:{ split; [discriminate|]. intros (_ & _ & ? & ? & ? & E & L & _).
      injection E as <-. congruence. }
  destruct (parseDuration (Startup.interval f)) as [dur|msg] eqn:HP.
  2:{ split; [discriminate|]. intros (_ & _ & ? & ? & ? & _ & _ & ? & _).
      discriminate. }
  simpl. split.
  - intros E. injection E as <-. repeat split; auto.
    exists user, username, dur. auto.
  - intros (_ & _ & user' & username' & dur' & E & L & P & ->).
    injection E as <-. rewrite HL in L. injection L as <-.
    injection P as <-. reflexivity.
Qed.

Lemma run_reaches_mode_witness :
  snd (Startup.run (Sample.flags "secret" false true)
         (inl {| Login := Some "bot" |}) Sample.parse30s)
  = Ret (Startup.ListenHooks 8080 "bot").
Proof.
  apply (run_reaches_mode (Sample.flags "secret" false true)
           (inl {| Login := Some "bot" |}) Sample.parse30s
           (Startup.ListenHooks 8080 "bot")).
  split; [reflexivity|]. split; [discriminate|].
  exists {| Login := Some "bot" |}, "bot", 30000000000.
  repeat split.
Defined.


